(** * Lettia Automation: reservation merge, dates, tourist tax, financials
      and guest matching, embedded from the Python sources under [services/]. *)

From Stdlib Require Import ZArith List Bool Ascii String Floats Lia DecimalString.
From stdpp Require Import gmap strings.

Set Warnings "-inexact-float".

Local Open Scope string_scope.
Local Open Scope Z_scope.

(** ** Python strings

    A Python [str] is modelled as a Rocq [string] of ASCII characters. *)

Module PyStr.

(** [str.isspace] on the ASCII range: TAB..CR, FS..US and SPACE. *)
Definition is_space (c : ascii) : bool :=
  let n := N.to_nat (N_of_ascii c) in
  (((9 <=? n) && (n <=? 13)) || ((28 <=? n) && (n <=? 32)))%nat.

(** Dropping the characters [blank] accepts from both ends. *)
Fixpoint lstrip_with (blank : ascii -> bool) (s : string) : string :=
  match s with
  | EmptyString => EmptyString
  | String c s' => if blank c then lstrip_with blank s' else s
  end.

Fixpoint rstrip_with (blank : ascii -> bool) (s : string) : string :=
  match s with
  | EmptyString => EmptyString
  | String c s' =>
      match rstrip_with blank s' with
      | EmptyString => if blank c then EmptyString else String c EmptyString
      | r => String c r
      end
  end.

Definition lstrip (s : string) : string := lstrip_with is_space s.

(** [s.strip()] *)
Definition strip (s : string) : string := rstrip_with is_space (lstrip s).

(** The blanks [float()] drops around a number: TAB..CR and SPACE only. *)
Definition is_c_space (c : ascii) : bool :=
  let n := N.to_nat (N_of_ascii c) in
  (((9 <=? n) && (n <=? 13)) || (n =? 32))%nat.

Definition c_strip (s : string) : string :=
  rstrip_with is_c_space (lstrip_with is_c_space s).

Definition is_blank (s : string) : bool := String.eqb (strip s) "".

Definition lower_char (c : ascii) : ascii :=
  let n := N_of_ascii c in
  if ((65 <=? n) && (n <=? 90))%N then ascii_of_N (n + 32) else c.

Definition upper_char (c : ascii) : ascii :=
  let n := N_of_ascii c in
  if ((97 <=? n) && (n <=? 122))%N then ascii_of_N (n - 32) else c.

Fixpoint map_chars (f : ascii -> ascii) (s : string) : string :=
  match s with
  | EmptyString => EmptyString
  | String c s' => String (f c) (map_chars f s')
  end.

(** [s.lower()] and [s.upper()] *)
Definition lower (s : string) : string := map_chars lower_char s.
Definition upper (s : string) : string := map_chars upper_char s.

(** The first whitespace-free run of [s]: [s.split()[0]], when there is one. *)
Fixpoint take_word (s : string) : string :=
  match s with
  | EmptyString => EmptyString
  | String c s' => if is_space c then EmptyString else String c (take_word s')
  end.

Definition first_word (s : string) : option string :=
  match lstrip s with
  | EmptyString => None
  | w => Some (take_word w)
  end.

Definition digit_val (c : ascii) : option Z :=
  let n := Z.of_N (N_of_ascii c) in
  if (48 <=? n) && (n <=? 57) then Some (n - 48) else None.

(** [str(n)] for an integer. *)
Definition of_Z (n : Z) : string := NilZero.string_of_int (Z.to_int n).

(** [n] written with at least [width] digits, zero padded ([%02d], [%04d]). *)
Fixpoint zeros (k : nat) : string :=
  match k with O => EmptyString | S k' => String "0" (zeros k') end.

Definition pad (width : nat) (n : Z) : string :=
  let d := of_Z n in
  (zeros (width - String.length d) ++ d)%string.

End PyStr.

(** ** Exceptions *)

Inductive exn :=
| ValueError | TypeError | OverflowError | ZeroDivisionError
| IndexError | AttributeError.

Inductive result (A : Type) :=
| Ok (a : A)
| Raise (e : exn).
Arguments Ok {A} a.
Arguments Raise {A} e.

Definition bind {A B : Type} (r : result A) (k : A -> result B) : result B :=
  match r with
  | Ok a => k a
  | Raise e => Raise e
  end.

Notation "'let!' x ':=' r 'in' k" := (bind r (fun x => k))
  (at level 10, x name, r at level 100, k at level 200).

(** [try: r except (e1, e2, ...): handler] *)
Definition try_except {A : Type} (r : result A) (caught : exn -> bool)
    (handler : result A) : result A :=
  match r with
  | Ok a => Ok a
  | Raise e => if caught e then handler else Raise e
  end.

(** ** Python floats: IEEE binary64 *)

Module PyFloat.

(** The double nearest to [(-1)^neg * num / den] ([num], [den] positive), ties
    to even: what reading a decimal literal or converting an integer gives. *)
Definition of_ratio (neg : bool) (num den : Z) : float :=
  if (num <=? 0) || (den <=? 0) then (if neg then neg_zero else zero)
  else
    let e := Z.log2 num - Z.log2 den - 54 in
    let n := if e <? 0 then num * 2 ^ (- e) else num in
    let d := if e <? 0 then den else den * 2 ^ e in
    let q := n / d in
    let r := n mod d in
    let loc := if r =? 0 then loc_Exact else loc_Inexact (2 * r ?= d) in
    SF2Prim (binary_round_aux prec emax neg q e loc).

(** [float(n)] for an integer: [OverflowError] past the largest double. *)
Definition of_int (n : Z) : result float :=
  let f := of_ratio (n <? 0) (Z.abs n) 1 in
  if is_infinity f then Raise OverflowError else Ok f.

(** An integer known to be small (a length, a day count). *)
Definition of_small (n : Z) : float := of_ratio (n <? 0) (Z.abs n) 1.

Definition round_half_even (num den : Z) : Z :=
  let q := num / den in
  match 2 * (num mod den) ?= den with
  | Lt => q
  | Eq => if Z.even q then q else q + 1
  | Gt => q + 1
  end.

(** [round(x, 2)]: the exact value of [x] rounded half-even to two decimals,
    then the double nearest to that decimal; zeros, infinities and NaN
    round to themselves. *)
Definition round2 (x : float) : float :=
  match Prim2SF x with
  | S754_finite s m e =>
      let cents :=
        if 0 <=? e then Zpos m * 2 ^ e * 100
        else round_half_even (Zpos m * 100) (2 ^ (- e)) in
      of_ratio s cents 100
  | _ => x
  end.

(** [int(x)]: truncation towards zero. *)
Definition trunc (x : float) : result Z :=
  match Prim2SF x with
  | S754_zero _ => Ok 0
  | S754_finite s m e =>
      let a := if 0 <=? e then Zpos m * 2 ^ e else Zpos m / 2 ^ (- e) in
      Ok (if s then - a else a)
  | S754_infinity _ => Raise OverflowError
  | S754_nan => Raise ValueError
  end.

(** [math.floor(x)] *)
Definition floor (x : float) : result Z :=
  match Prim2SF x with
  | S754_zero _ => Ok 0
  | S754_finite s m e =>
      if 0 <=? e then Ok (if s then - (Zpos m * 2 ^ e) else Zpos m * 2 ^ e)
      else Ok (if s then - ((Zpos m + 2 ^ (- e) - 1) / 2 ^ (- e))
               else Zpos m / 2 ^ (- e))
  | S754_infinity _ => Raise OverflowError
  | S754_nan => Raise ValueError
  end.

(** [x / y] on floats *)
Definition div (x y : float) : result float :=
  if (y =? 0)%float then Raise ZeroDivisionError else Ok (x / y)%float.

(** [x > y], [x <= y] *)
Definition gt (x y : float) : bool := (y <? x)%float.
Definition le (x y : float) : bool := (x <=? y)%float.

(** *** The order of floats

    Comparing two floats that are numbers is comparing their ranks: class
    first (-inf, negative, zero, positive, +inf), then exponent, then
    mantissa. NaN has no rank. *)

Definition rank (x : spec_float) : option (Z * Z * Z) :=
  match x with
  | S754_nan => None
  | S754_infinity s => Some (if s then -2 else 2, 0, 0)
  | S754_zero _ => Some (0, 0, 0)
  | S754_finite s m e =>
      Some (if s then (-1, - e, - Zpos m) else (1, e, Zpos m))
  end.

Definition rank_lt (a b : Z * Z * Z) : Prop :=
  let '(a1, a2, a3) := a in
  let '(b1, b2, b3) := b in
  a1 < b1 \/ (a1 = b1 /\ (a2 < b2 \/ (a2 = b2 /\ a3 < b3))).

(** *** [float(text)]

    Optional sign, then [inf], [infinity] or [nan] in any case, or digits with
    an optional point and an optional exponent; an underscore may stand
    between two digits; TAB..CR and SPACE around the text are dropped. *)

(** A run of digits after its first one: value so far, digit count, the rest. *)
Fixpoint scan_digits (acc cnt : Z) (s : string) : Z * Z * string :=
  match s with
  | EmptyString => (acc, cnt, s)
  | String c r =>
      match PyStr.digit_val c with
      | Some d => scan_digits (10 * acc + d) (cnt + 1) r
      | None =>
          if Ascii.eqb c "_" then
            match r with
            | String c2 r2 =>
                match PyStr.digit_val c2 with
                | Some d => scan_digits (10 * acc + d) (cnt + 1) r2
                | None => (acc, cnt, s)
                end
            | EmptyString => (acc, cnt, s)
            end
          else (acc, cnt, s)
      end
  end.

(** A run of digits continuing the value [acc]; no digit: count 0. *)
Definition digit_run (acc : Z) (s : string) : Z * Z * string :=
  match s with
  | String c r =>
      match PyStr.digit_val c with
      | Some d => scan_digits (10 * acc + d) 1 r
      | None => (acc, 0, s)
      end
  | EmptyString => (acc, 0, s)
  end.

Definition take_sign (s : string) : bool * string :=
  match s with
  | String "-" r => (true, r)
  | String "+" r => (false, r)
  | _ => (false, s)
  end.

(** The exponent part, when well formed: its value and the rest. *)
Definition exponent (s : string) : option (Z * string) :=
  match s with
  | String c r =>
      if Ascii.eqb c "e" || Ascii.eqb c "E" then
        let '(neg, r1) := take_sign r in
        let '(x, cnt, r2) := digit_run 0 r1 in
        if cnt =? 0 then None else Some (if neg then - x else x, r2)
      else None
  | EmptyString => None
  end.

Definition of_decimal (neg : bool) (m x : Z) : float :=
  if 0 <=? x then of_ratio neg (m * 10 ^ x) 1 else of_ratio neg m (10 ^ (- x)).

Definition of_string (text : string) : result float :=
  let '(neg, s) := take_sign (PyStr.c_strip text) in
  let name := PyStr.lower s in
  if String.eqb name "inf" || String.eqb name "infinity"
  then Ok (if neg then neg_infinity else infinity)
  else if String.eqb name "nan" then Ok nan
  else
    let '(ip, icnt, r1) := digit_run 0 s in
    let '(m, fcnt, r2) :=
      match r1 with
      | String "." r => digit_run ip r
      | _ => (ip, 0, r1)
      end in
    if icnt + fcnt =? 0 then Raise ValueError
    else
      match r2 with
      | EmptyString => Ok (of_decimal neg m (- fcnt))
      | _ =>
          match exponent r2 with
          | Some (x, EmptyString) => Ok (of_decimal neg m (x - fcnt))
          | _ => Raise ValueError
          end
      end.

(** *** [repr(x)]: the shortest decimal text that reads back as [x]

    [x = m * 2^e] rounds from the open or closed interval between the
    midpoints to its neighbours. For n = 1, 2, ... digits, the n-digit
    decimals just below and just above [x] are tried; the first n with one of
    them inside the interval gives the digits (the nearer one, ties to the
    even digit). *)

(** [X / D >= 10^k] *)
Definition ge_pow10 (X D k : Z) : bool :=
  if 0 <=? k then D * 10 ^ k <=? X else D <=? X * 10 ^ (- k).

(** The [p] with [10^(p-1) <= X/D < 10^p], from an estimate corrected upwards
    and downwards. *)
Fixpoint adjust_up (fuel : nat) (X D p : Z) : Z :=
  match fuel with
  | O => p
  | S fuel' => if ge_pow10 X D p then adjust_up fuel' X D (p + 1) else p
  end.

Fixpoint adjust_down (fuel : nat) (X D p : Z) : Z :=
  match fuel with
  | O => p
  | S fuel' => if ge_pow10 X D (p - 1) then p else adjust_down fuel' X D (p - 1)
  end.

Definition decimal_point (X D : Z) : Z :=
  let est := (Z.log2 X - Z.log2 D) * 30103 / 100000 in
  adjust_up 4 X D (adjust_down 4 X D (est + 1)).

Fixpoint strip_zeros (fuel : nat) (c : Z) : Z :=
  match fuel with
  | O => c
  | S fuel' => if (c mod 10 =? 0) && negb (c =? 0) then strip_zeros fuel' (c / 10) else c
  end.

(** The digits (as a number without trailing zeros) and the position of the
    decimal point: [x = 0.d1d2...dn * 10^decpt]. *)
Fixpoint shortest_from (fuel : nat) (n : Z) (X LO HI D p : Z) (closed : bool)
    : Z * Z :=
  let k := p - n in
  let A := if 0 <=? k then X else X * 10 ^ (- k) in
  let L := if 0 <=? k then LO else LO * 10 ^ (- k) in
  let H := if 0 <=? k then HI else HI * 10 ^ (- k) in
  let B := if 0 <=? k then D * 10 ^ k else D in
  let c := A / B in
  let r := A mod B in
  let low_in := if closed then L <=? c * B else L <? c * B in
  let high_in := if closed then (c + 1) * B <=? H else (c + 1) * B <? H in
  let pick (c' : Z) :=
    if c' =? 10 ^ n then (1, p + 1) else (strip_zeros 17 c', p) in
  match fuel with
  | O => pick c
  | S fuel' =>
      if r =? 0 then pick c
      else if low_in && high_in then
        match 2 * r ?= B with
        | Lt => pick c
        | Gt => pick (c + 1)
        | Eq => if Z.even c then pick c else pick (c + 1)
        end
      else if low_in then pick c
      else if high_in then pick (c + 1)
      else shortest_from fuel' (n + 1) X LO HI D p closed
  end.

Definition shortest (m : positive) (e : Z) : Z * Z :=
  let narrow := (Zpos m =? 2 ^ 52) && (-1074 <? e) in
  let X := if 0 <=? e then 4 * Zpos m * 2 ^ e else 4 * Zpos m in
  let D := if 0 <=? e then 4 else 4 * 2 ^ (- e) in
  let u := if 0 <=? e then 2 ^ e else 1 in
  let LO := X - (if narrow then 1 else 2) * u in
  let HI := X + 2 * u in
  shortest_from 17 1 X LO HI D (decimal_point X D) (Z.even (Zpos m)).

(** How [repr] lays the digits out: an exponent when the decimal point is
    more than 16 places right or 4 or more places left of the digits. *)
Definition layout (digits : string) (decpt : Z) : string :=
  let n := Z.of_nat (String.length digits) in
  if (decpt <=? -4) || (16 <? decpt) then
    let x := decpt - 1 in
    let mant :=
      match digits with
      | String d EmptyString => digits
      | String d rest => String d (String "." rest)
      | EmptyString => digits
      end in
    let sign := if x <? 0 then "-" else "+" in
    (mant ++ "e" ++ sign ++ PyStr.pad 2 (Z.abs x))%string
  else if decpt <=? 0 then
    ("0." ++ PyStr.zeros (Z.to_nat (- decpt)) ++ digits)%string
  else if n <=? decpt then
    (digits ++ PyStr.zeros (Z.to_nat (decpt - n)) ++ ".0")%string
  else
    (String.substring 0 (Z.to_nat decpt) digits ++ "."
     ++ String.substring (Z.to_nat decpt) (Z.to_nat (n - decpt)) digits)%string.

Definition repr (x : float) : string :=
  match Prim2SF x with
  | S754_nan => "nan"
  | S754_infinity s => if s then "-inf" else "inf"
  | S754_zero s => if s then "-0.0" else "0.0"
  | S754_finite s m e =>
      let '(c, decpt) := shortest m e in
      let sign := if s then "-" else "" in
      (sign ++ layout (PyStr.of_Z c) decpt)%string
  end.

End PyFloat.


(** ** Calendar dates: [datetime.date]

    The proleptic Gregorian calendar of the [datetime] module, years 1..9999,
    with its day numbering ([date.toordinal]: 0001-01-01 is day 1). *)

Record date := mkdate { year : Z; month : Z; day : Z }.

Module Calendar.

Definition is_leap (y : Z) : bool :=
  (y mod 4 =? 0) && (negb (y mod 100 =? 0) || (y mod 400 =? 0)).

Definition days_in_month (y m : Z) : Z :=
  if m =? 2 then (if is_leap y then 29 else 28)
  else if (m =? 4) || (m =? 6) || (m =? 9) || (m =? 11) then 30
  else 31.

Definition valid_date (y m d : Z) : bool :=
  (1 <=? y) && (y <=? 9999) && (1 <=? m) && (m <=? 12)
  && (1 <=? d) && (d <=? days_in_month y m).

(** [date(y, m, d)] *)
Definition make_date (y m d : Z) : result date :=
  if valid_date y m d then Ok (mkdate y m d) else Raise ValueError.

Definition days_before_year (y : Z) : Z :=
  let y1 := y - 1 in y1 * 365 + y1 / 4 - y1 / 100 + y1 / 400.

Definition DAYS_BEFORE_MONTH : list Z :=
  [0; 0; 31; 59; 90; 120; 151; 181; 212; 243; 273; 304; 334].

Definition days_before_month (y m : Z) : Z :=
  nth (Z.to_nat m) DAYS_BEFORE_MONTH 0
  + (if (2 <? m) && is_leap y then 1 else 0).

Definition toordinal (d : date) : Z :=
  days_before_year (year d) + days_before_month (year d) (month d) + day d.

(** [date.fromordinal], as [_ord2ymd] computes it. *)
Definition fromordinal (n : Z) : date :=
  let n := n - 1 in
  let n400 := n / 146097 in
  let n := n mod 146097 in
  let n100 := n / 36524 in
  let n := n mod 36524 in
  let n4 := n / 1461 in
  let n := n mod 1461 in
  let n1 := n / 365 in
  let n := n mod 365 in
  let y := n400 * 400 + 1 + n100 * 100 + n4 * 4 + n1 in
  if (n1 =? 4) || (n100 =? 4) then mkdate (y - 1) 12 31
  else
    let leapyear := (n1 =? 3) && (negb (n4 =? 24) || (n100 =? 3)) in
    let m := Z.shiftr (n + 50) 5 in
    let preceding :=
      nth (Z.to_nat m) DAYS_BEFORE_MONTH 0
      + (if (2 <? m) && leapyear then 1 else 0) in
    if n <? preceding then
      let m' := m - 1 in
      let in_month :=
        (if m' =? 2 then 28
         else if (m' =? 4) || (m' =? 6) || (m' =? 9) || (m' =? 11) then 30
         else 31)
        + (if (m' =? 2) && leapyear then 1 else 0) in
      mkdate y m' (n - (preceding - in_month) + 1)
    else mkdate y m (n - preceding + 1).

Definition MAX_ORDINAL : Z := 3652059.
Definition MAX_DELTA_DAYS : Z := 999999999.

(** [d + timedelta(days=n)] *)
Definition add_days (d : date) (n : Z) : result date :=
  if MAX_DELTA_DAYS <? Z.abs n then Raise OverflowError
  else
    let o := toordinal d + n in
    if (1 <=? o) && (o <=? MAX_ORDINAL) then Ok (fromordinal o)
    else Raise OverflowError.

(** [(a - b).days] *)
Definition days_between (a b : date) : Z := toordinal a - toordinal b.

Definition date_eqb (a b : date) : bool :=
  (year a =? year b) && (month a =? month b) && (day a =? day b).

(** [a < b], [a <= b] on dates *)
Definition date_ltb (a b : date) : bool := toordinal a <? toordinal b.
Definition date_leb (a b : date) : bool := toordinal a <=? toordinal b.

(** [str(d)]: the year with four digits. *)
Definition isoformat (d : date) : string :=
  (PyStr.pad 4 (year d) ++ "-" ++ PyStr.pad 2 (month d) ++ "-"
   ++ PyStr.pad 2 (day d))%string.

(** [d.strftime('%Y-%m-%d')], as the C library of Linux writes it: the year
    without padding. *)
Definition strftime_ymd (d : date) : string :=
  (PyStr.of_Z (year d) ++ "-" ++ PyStr.pad 2 (month d) ++ "-"
   ++ PyStr.pad 2 (day d))%string.

End Calendar.

(** ** Matching a date text: [datetime.strptime] and [re.search]

    [strptime] turns the format into a regular expression, takes its first
    match at the start of the text (alternatives in the order written,
    backtracking) and fails on text left over. A pattern is a list of tokens;
    [matches] lists every way to match it, in the order the backtracking
    search finds them. *)

Module Pattern.
Import PyStr.

Record fields := mkfields { fY : Z; fm : Z; fd : Z; fH : Z; fM : Z; fS : Z }.

Definition no_fields : fields := mkfields 1900 1 1 0 0 0.

Inductive field := F_Y | F_y | F_m | F_d | F_H | F_M | F_S.

(** A two-digit year: 69..99 is 1969..1999, 00..68 is 2000..2068. *)
Definition set_field (k : field) (v : Z) (f : fields) : fields :=
  match k with
  | F_Y => mkfields v (fm f) (fd f) (fH f) (fM f) (fS f)
  | F_y => mkfields (if v <=? 68 then v + 2000 else v + 1900)
                    (fm f) (fd f) (fH f) (fM f) (fS f)
  | F_m => mkfields (fY f) v (fd f) (fH f) (fM f) (fS f)
  | F_d => mkfields (fY f) (fm f) v (fH f) (fM f) (fS f)
  | F_H => mkfields (fY f) (fm f) (fd f) v (fM f) (fS f)
  | F_M => mkfields (fY f) (fm f) (fd f) (fH f) v (fS f)
  | F_S => mkfields (fY f) (fm f) (fd f) (fH f) (fM f) v
  end.

Inductive tok :=
| Dir (k : field)                 (* a directive of strptime: %Y %y %m %d %H %M %S *)
| Lit (c : ascii)                 (* the character itself, whatever its case *)
| Spaces                          (* \s+ *)
| Digits (lo extra : nat) (k : field)   (* (\d{lo,lo+extra}), greedy *)
| Sep                             (* [-/] *)
| Bad.                            (* an unknown directive *)

Definition digit_in (lo hi : Z) (c : ascii) : option Z :=
  match digit_val c with
  | Some d => if (lo <=? d) && (d <=? hi) then Some d else None
  | None => None
  end.

(** One alternative made of two digits, each in its range; of one digit. *)
Definition two (a1 b1 a2 b2 : Z) (s : string) : list (Z * string) :=
  match s with
  | String c1 (String c2 r) =>
      match digit_in a1 b1 c1, digit_in a2 b2 c2 with
      | Some x, Some y => [(10 * x + y, r)]
      | _, _ => []
      end
  | _ => []
  end.

Definition one (a b : Z) (s : string) : list (Z * string) :=
  match s with
  | String c r =>
      match digit_in a b c with
      | Some x => [(x, r)]
      | None => []
      end
  | _ => []
  end.

Definition space_then_one (a b : Z) (s : string) : list (Z * string) :=
  match s with
  | String " " r => one a b r
  | _ => []
  end.

Fixpoint take_digits (n : nat) (acc : Z) (s : string) : list (Z * string) :=
  match n with
  | O => [(acc, s)]
  | S n' =>
      match s with
      | String c r =>
          match digit_val c with
          | Some d => take_digits n' (10 * acc + d) r
          | None => []
          end
      | EmptyString => []
      end
  end.

Fixpoint digits_alts (lo extra : nat) (s : string) : list (Z * string) :=
  match extra with
  | O => take_digits lo 0 s
  | S e' => take_digits (lo + extra) 0 s ++ digits_alts lo e' s
  end.

(** The alternatives of each directive, as [_strptime] orders them:
    %m is 1[0-2]|0[1-9]|[1-9], %d is 3[0-1]|[1-2]\d|0[1-9]|[1-9]| [1-9],
    %H is 2[0-3]|[0-1]\d|\d, %M is [0-5]\d|\d, %S is 6[0-1]|[0-5]\d|\d,
    %Y is \d\d\d\d and %y is \d\d. *)
Definition dir_alts (k : field) (s : string) : list (Z * string) :=
  match k with
  | F_Y => take_digits 4 0 s
  | F_y => take_digits 2 0 s
  | F_m => two 1 1 0 2 s ++ two 0 0 1 9 s ++ one 1 9 s
  | F_d => two 3 3 0 1 s ++ two 1 2 0 9 s ++ two 0 0 1 9 s ++ one 1 9 s
           ++ space_then_one 1 9 s
  | F_H => two 2 2 0 3 s ++ two 0 1 0 9 s ++ one 0 9 s
  | F_M => two 0 5 0 9 s ++ one 0 9 s
  | F_S => two 6 6 0 1 s ++ two 0 5 0 9 s ++ one 0 9 s
  end.

(** What is left after one or more spaces, the longest run first. *)
Fixpoint spaces_alts (s : string) : list string :=
  match s with
  | String c r => if is_space c then spaces_alts r ++ [r] else []
  | EmptyString => []
  end.

Definition tok_alts (t : tok) (s : string) (f : fields) : list (fields * string) :=
  match t with
  | Dir k => map (fun '(v, r) => (set_field k v f, r)) (dir_alts k s)
  | Digits lo extra k =>
      map (fun '(v, r) => (set_field k v f, r)) (digits_alts lo extra s)
  | Lit c =>
      match s with
      | String c' r =>
          if Ascii.eqb (lower_char c) (lower_char c') then [(f, r)] else []
      | EmptyString => []
      end
  | Spaces => map (fun r => (f, r)) (spaces_alts s)
  | Sep =>
      match s with
      | String c r =>
          if Ascii.eqb c "-" || Ascii.eqb c "/" then [(f, r)] else []
      | EmptyString => []
      end
  | Bad => []
  end.

Fixpoint matches (ts : list tok) (s : string) (f : fields)
    : list (fields * string) :=
  match ts with
  | [] => [(f, s)]
  | t :: ts' =>
      flat_map (fun '(f', r) => matches ts' r f') (tok_alts t s f)
  end.

(** [re.match]: the first match at the start of the text. *)
Definition match_prefix (ts : list tok) (s : string) : option (fields * string) :=
  head (matches ts s no_fields).

(** [re.search]: the first match at the leftmost position that has one. *)
Fixpoint search (ts : list tok) (s : string) : option fields :=
  match match_prefix ts s with
  | Some (f, _) => Some f
  | None =>
      match s with
      | EmptyString => None
      | String _ r => search ts r
      end
  end.

Definition directive (c : ascii) : tok :=
  if Ascii.eqb c "Y" then Dir F_Y
  else if Ascii.eqb c "y" then Dir F_y
  else if Ascii.eqb c "m" then Dir F_m
  else if Ascii.eqb c "d" then Dir F_d
  else if Ascii.eqb c "H" then Dir F_H
  else if Ascii.eqb c "M" then Dir F_M
  else if Ascii.eqb c "S" then Dir F_S
  else Bad.

(** The tokens of a [strptime] format: a run of spaces is one [\s+]. *)
Fixpoint compile (fmt : string) : list tok :=
  match fmt with
  | EmptyString => []
  | String c r =>
      if Ascii.eqb c "%" then
        match r with
        | String k r' => directive k :: compile r'
        | EmptyString => [Bad]
        end
      else if is_space c then
        match r with
        | String c' _ => if is_space c' then compile r else Spaces :: compile r
        | EmptyString => [Spaces]
        end
      else Lit c :: compile r
  end.

(** [datetime.strptime(text, fmt)]: the date and the time of day. *)
Definition strptime (text fmt : string) : result (date * (Z * Z * Z)) :=
  match match_prefix (compile fmt) text with
  | Some (f, EmptyString) =>
      let! d := Calendar.make_date (fY f) (fm f) (fd f) in
      if fS f <=? 59 then Ok (d, (fH f, fM f, fS f)) else Raise ValueError
  | _ => Raise ValueError
  end.

(** [datetime.strptime(text, fmt).date()] *)
Definition strptime_date (text fmt : string) : result date :=
  let! dt := strptime text fmt in Ok (fst dt).

End Pattern.

(** ** Python values

    What a field of a reservation, configuration or form dictionary can hold. *)

Inductive value :=
| VNone
| VBool (b : bool)
| VInt (n : Z)
| VFloat (f : float)
| VStr (s : string)
| VDateTime (d : date) (hh mm ss : Z)
| VOther (shown : string) (truthy : bool).
(** [VOther shown truthy] is any other object (a list, a nested dictionary, ...):
    [shown] is what [str()] gives for it and [truthy] its truth value. *)

(** [str(v)] *)
Definition py_str (v : value) : string :=
  match v with
  | VNone => "None"
  | VBool b => if b then "True" else "False"
  | VInt n => PyStr.of_Z n
  | VFloat f => PyFloat.repr f
  | VStr s => s
  | VDateTime d hh mm ss =>
      (Calendar.isoformat d ++ " " ++ PyStr.pad 2 hh ++ ":" ++ PyStr.pad 2 mm
       ++ ":" ++ PyStr.pad 2 ss)%string
  | VOther shown _ => shown
  end.

(** The truth value of [v]: what [if v:] and [not v] test. *)
Definition truthy (v : value) : bool :=
  match v with
  | VNone => false
  | VBool b => b
  | VInt n => negb (n =? 0)
  | VFloat f => negb (f =? 0)%float
  | VStr s => negb (String.eqb s "")
  | VDateTime _ _ _ _ => true
  | VOther _ t => t
  end.

(** [float(v)] *)
Definition py_float (v : value) : result float :=
  match v with
  | VBool b => Ok (if b then 1 else 0)%float
  | VInt n => PyFloat.of_int n
  | VFloat f => Ok f
  | VStr s => PyFloat.of_string s
  | VNone | VDateTime _ _ _ _ | VOther _ _ => Raise TypeError
  end.

(** [d.get(key, None)] and [d.get(key, dflt)] *)
Definition get (d : gmap string value) (key : string) : value :=
  default VNone (d !! key).

Definition get_or (d : gmap string value) (key : string) (dflt : value) : value :=
  default dflt (d !! key).

(** ** services/date_utils.py *)

Module DateUtils.

(** [datetime(1899, 12, 30)], the epoch of spreadsheet serial dates. *)
Definition epoch : date := mkdate 1899 12 30.

(** [int(value)] for a value that is an [int] or a [float]. *)
Definition int_of_number (v : value) : result Z :=
  match v with
  | VBool b => Ok (if b then 1 else 0)
  | VInt n => Ok n
  | VFloat f => PyFloat.trunc f
  | _ => Raise TypeError
  end.

(** The first [try] block: a number is a serial date. *)
Definition serial_date (v : value) : result string :=
  try_except
    (let! days := int_of_number v in
     let! date_obj := Calendar.add_days epoch days in
     Ok (Calendar.strftime_ymd date_obj))
    (fun e => match e with OverflowError => true | _ => false end)
    (Raise ValueError).

(** One [try: strptime ... except ValueError: pass] block, then the rest. *)
Definition try_format (date_str fmt : string) (otherwise : result string)
    : result string :=
  match Pattern.strptime_date date_str fmt with
  | Ok date_obj => Ok (Calendar.strftime_ymd date_obj)
  | Raise ValueError => otherwise
  | Raise e => Raise e
  end.

Definition normalize_date (v : value) : result string :=
  match v with
  | VNone => Raise ValueError
  | VBool _ | VInt _ | VFloat _ => serial_date v
  | _ =>
      let date_str := PyStr.strip (py_str v) in
      if String.eqb date_str "" then Raise ValueError
      else
        try_format date_str "%Y-%m-%d"
          (try_format date_str "%Y/%m/%d"
             (try_format date_str "%m/%d/%Y"
                (try_format date_str "%d/%m/%Y"
                   (Raise ValueError))))
  end.

(** [normalize_date_safe]: an exception other than [ValueError] and
    [TypeError] would pass through. *)
Definition normalize_date_safe (v : value) : result string :=
  match v with
  | VNone => Ok ""
  | _ =>
      try_except (normalize_date v)
        (fun e => match e with ValueError | TypeError => true | _ => false end)
        (Ok "")
  end.

End DateUtils.

(** ** services/tourist_tax.py *)

Module TouristTax.

(** The [try] block: the three dates, normalised then parsed. *)
Definition parse_dates (check_in check_out dob : value)
    : result (date * date * date) :=
  try_except
    (let! check_in_normalized := DateUtils.normalize_date check_in in
     let! check_out_normalized := DateUtils.normalize_date check_out in
     let! dob_normalized := DateUtils.normalize_date dob in
     let! check_in_date := Pattern.strptime_date check_in_normalized "%Y-%m-%d" in
     let! check_out_date := Pattern.strptime_date check_out_normalized "%Y-%m-%d" in
     let! dob_date := Pattern.strptime_date dob_normalized "%Y-%m-%d" in
     Ok (check_in_date, check_out_date, dob_date))
    (fun e => match e with ValueError => true | _ => false end)
    (Raise ValueError).

(** [floor(days_old / 365.25)] *)
Definition age_at (days_old : Z) : result Z :=
  PyFloat.floor (PyFloat.of_small days_old / 365.25)%float.

(** The loop [for i in range(total_nights)], from night [i] on, [n] nights
    to go. *)
Fixpoint count_chargeable (n : nat) (i : Z) (check_in_date dob_date : date)
    (chargeable_nights : Z) : result Z :=
  match n with
  | O => Ok chargeable_nights
  | S n' =>
      let! night_date := Calendar.add_days check_in_date i in
      let days_old := Calendar.days_between night_date dob_date in
      let! age_at_night := age_at days_old in
      count_chargeable n' (i + 1) check_in_date dob_date
        (if 16 <=? age_at_night then chargeable_nights + 1
         else chargeable_nights)
  end.

(** [calculate_tourist_tax]; [today] is [datetime.now().date()]. *)
Definition calculate_tourist_tax (today : date) (check_in check_out dob : value)
    : result Z :=
  let! dates := parse_dates check_in check_out dob in
  let '(check_in_date, check_out_date, dob_date) := dates in
  if Calendar.date_leb check_out_date check_in_date then Ok 0
  else if Calendar.date_ltb today dob_date then Ok 0
  else
    let total_nights := Calendar.days_between check_out_date check_in_date in
    if total_nights <=? 0 then Ok 0
    else
      let! chargeable_nights :=
        count_chargeable (Z.to_nat total_nights) 0 check_in_date dob_date 0 in
      let paid_nights := Z.min chargeable_nights 7 in
      let tax_amount := paid_nights * 2 in
      Ok tax_amount.

(** The dictionary [calculate_tourist_tax_detailed] returns. *)
Record tax_breakdown := mkbreakdown {
  total_nights : Z;
  chargeable_nights : Z;
  paid_nights : Z;
  tax_amount : Z;
  per_night_rate : Z
}.

(** [calculate_tourist_tax_detailed]: the same [try] block and the same loop
    as [calculate_tourist_tax]. *)
Definition calculate_tourist_tax_detailed (today : date)
    (check_in check_out dob : value) : result tax_breakdown :=
  let! dates := parse_dates check_in check_out dob in
  let '(check_in_date, check_out_date, dob_date) := dates in
  if Calendar.date_leb check_out_date check_in_date
  then Ok (mkbreakdown 0 0 0 0 2)
  else if Calendar.date_ltb today dob_date
  then Ok (mkbreakdown (Calendar.days_between check_out_date check_in_date) 0 0 0 2)
  else
    let total_nights := Calendar.days_between check_out_date check_in_date in
    let! chargeable_nights :=
      count_chargeable (Z.to_nat total_nights) 0 check_in_date dob_date 0 in
    let paid_nights := Z.min chargeable_nights 7 in
    let tax_amount := paid_nights * 2 in
    Ok (mkbreakdown total_nights chargeable_nights paid_nights tax_amount 2).

End TouristTax.

(** ** [difflib.SequenceMatcher(None, a, b).ratio()]

    No junk predicate, automatic junk heuristic on: when [b] has 200
    characters or more, a character filling more than 1% of it (plus one)
    starts no match. *)

Module Difflib.

Fixpoint indices_from (c : ascii) (b : list ascii) (j : nat) : list nat :=
  match b with
  | [] => []
  | x :: b' =>
      if Ascii.eqb x c then j :: indices_from c b' (S j)
      else indices_from c b' (S j)
  end.

Definition popular (b : list ascii) (c : ascii) : bool :=
  let n := length b in
  ((200 <=? n) && (n / 100 + 1 <? length (indices_from c b 0)))%nat.

(** [b2j.get(c, [])]: where [c] occurs in [b], ascending. *)
Definition b2j (b : list ascii) (c : ascii) : list nat :=
  if popular b c then [] else indices_from c b 0.

Fixpoint j2len_get (j2len : list (nat * nat)) (j : nat) : nat :=
  match j2len with
  | [] => O
  | (j', k) :: rest => if Nat.eqb j' j then k else j2len_get rest j
  end.

(** [for j in b2j.get(a[i], nothing)] *)
Fixpoint scan_row (js : list nat) (i blo bhi : nat)
    (j2len newj2len : list (nat * nat)) (best : nat * nat * nat)
    : list (nat * nat) * (nat * nat * nat) :=
  match js with
  | [] => (newj2len, best)
  | j :: js' =>
      if (j <? blo)%nat then scan_row js' i blo bhi j2len newj2len best
      else if (bhi <=? j)%nat then (newj2len, best)
      else
        let k := S (match j with O => O | S j1 => j2len_get j2len j1 end) in
        let '(_, _, bestsize) := best in
        scan_row js' i blo bhi j2len ((j, k) :: newj2len)
          (if (bestsize <? k)%nat then ((i + 1 - k)%nat, (j + 1 - k)%nat, k)
           else best)
  end.

(** [for i in range(alo, ahi)], [n] rows to go. *)
Fixpoint scan_rows (n i : nat) (a b : list ascii) (blo bhi : nat)
    (j2len : list (nat * nat)) (best : nat * nat * nat) : nat * nat * nat :=
  match n with
  | O => best
  | S n' =>
      let '(newj2len, best') :=
        scan_row (b2j b (nth i a "000"%char)) i blo bhi j2len [] best in
      scan_rows n' (S i) a b blo bhi newj2len best'
  end.

(** The two [while] loops that grow the best match at both ends. *)
Fixpoint extend_left (fuel : nat) (a b : list ascii) (alo blo : nat)
    (besti bestj bestsize : nat) : nat * nat * nat :=
  match fuel with
  | O => (besti, bestj, bestsize)
  | S fuel' =>
      if ((alo <? besti) && (blo <? bestj))%nat
         && Ascii.eqb (nth (besti - 1) a "000"%char) (nth (bestj - 1) b "000"%char)
      then extend_left fuel' a b alo blo (besti - 1)%nat (bestj - 1)%nat (S bestsize)
      else (besti, bestj, bestsize)
  end.

Fixpoint extend_right (fuel : nat) (a b : list ascii) (ahi bhi : nat)
    (besti bestj bestsize : nat) : nat * nat * nat :=
  match fuel with
  | O => (besti, bestj, bestsize)
  | S fuel' =>
      if ((besti + bestsize <? ahi) && (bestj + bestsize <? bhi))%nat
         && Ascii.eqb (nth (besti + bestsize) a "000"%char)
                      (nth (bestj + bestsize) b "000"%char)
      then extend_right fuel' a b ahi bhi besti bestj (S bestsize)
      else (besti, bestj, bestsize)
  end.

Definition find_longest_match (a b : list ascii) (alo ahi blo bhi : nat)
    : nat * nat * nat :=
  let '(besti, bestj, bestsize) :=
    scan_rows (ahi - alo) alo a b blo bhi [] (alo, blo, O) in
  let '(besti, bestj, bestsize) :=
    extend_left besti a b alo blo besti bestj bestsize in
  extend_right ahi a b ahi bhi besti bestj bestsize.

(** The sizes of the matching blocks, summed: the longest match of a range,
    then the ranges left and right of it. Every level takes at least one
    character of [a] away, so [fuel] bounds the depth. *)
Fixpoint matched (fuel : nat) (a b : list ascii) (alo ahi blo bhi : nat) : nat :=
  match fuel with
  | O => O
  | S fuel' =>
      let '(i, j, k) := find_longest_match a b alo ahi blo bhi in
      if Nat.eqb k 0 then O
      else
        (k
         + (if (alo <? i) && (blo <? j) then matched fuel' a b alo i blo j else O)
         + (if (i + k <? ahi) && (j + k <? bhi)
            then matched fuel' a b (i + k) ahi (j + k) bhi else O))%nat
  end.

Definition ratio (a b : string) : float :=
  let la := list_ascii_of_string a in
  let lb := list_ascii_of_string b in
  let matches := matched (S (length la)) la lb 0 (length la) 0 (length lb) in
  let total := (length la + length lb)%nat in
  if Nat.eqb total 0 then 1%float
  else (2 * PyFloat.of_small (Z.of_nat matches)
        / PyFloat.of_small (Z.of_nat total))%float.

End Difflib.

(** ** services/reservation_merger.py *)

Module ReservationMerger.

Definition FINANCIAL_FIELDS : gset string :=
  list_to_set
    [ "airbnb_fee"; "lodgify_fee"; "stripe_fee"; "dynamic_fee"; "total_fees";
      "vat_amount"; "net_revenue"; "payout_expected"; "price_per_night";
      "price_per_guest_per_night" ].

Definition ALWAYS_OVERWRITE_FIELDS : gset string :=
  list_to_set [ "country"; "payout_expected" ].

(** [_is_empty]: [None], a blank string, or a number equal to zero
    ([bool] is a subclass of [int]). *)
Definition _is_empty (v : value) : bool :=
  match v with
  | VNone => true
  | VStr s => PyStr.is_blank s
  | VBool b => negb b
  | VInt n => Z.eqb n 0
  | VFloat f => (f =? 0)%float
  | _ => false
  end.

(** [isinstance(v, str) and v.strip() == ""] *)
Definition is_blank_str (v : value) : bool :=
  match v with
  | VStr s => PyStr.is_blank s
  | _ => false
  end.

Definition is_none (v : value) : bool :=
  match v with VNone => true | _ => false end.

(** The body of the loop of [merge]: the value stored under [key]. *)
Definition merge_key (existing new : gmap string value) (key : string) : value :=
  if decide (key ∈ FINANCIAL_FIELDS) then
    let new_value := get new key in
    if negb (is_none new_value) && negb (is_blank_str new_value) then new_value
    else if negb (is_none (get existing key)) then get_or existing key (VFloat 0)
         else VFloat 0
  else if decide (key ∈ ALWAYS_OVERWRITE_FIELDS) then
    let new_value := get new key in
    if negb (is_none new_value) then new_value else VStr ""
  else
    let existing_value := get existing key in
    let new_value := get new key in
    if _is_empty existing_value && negb (_is_empty new_value) then new_value
    else if negb (_is_empty existing_value) && _is_empty new_value then existing_value
    else if negb (_is_empty existing_value) && negb (_is_empty new_value) then new_value
    else if negb (is_none new_value) then new_value else existing_value.

(** [merge]: one assignment [merged[key] = ...] per key of [all_keys]. *)
Definition merge (existing new : gmap string value) : gmap string value :=
  let all_keys : gset string := dom existing ∪ dom new in
  set_fold (fun key merged => <[key := merge_key existing new key]> merged) ∅ all_keys.

End ReservationMerger.

(** ** services/finance.py *)

Module Finance.

(** The dictionary [calculate_financials] returns, one field per key. *)
Record financials := mkfinancials {
  airbnb_fee : float;
  lodgify_fee : float;
  stripe_fee : float;
  dynamic_fee : float;
  total_fees : float;
  vat_amount : float;
  net_revenue : float;
  payout_expected : float;
  anticipation_days : value;
  price_per_night : float;
  price_per_guest_per_night : float
}.

(** [s.replace(",", ".")] *)
Definition commas_to_dots (s : string) : string :=
  PyStr.map_chars (fun c => if Ascii.eqb c "," then "."%char else c) s.

(** The helper [_to_float]. *)
Definition _to_float (v : value) : result float :=
  match v with
  | VNone => Ok 0%float
  | VBool _ | VInt _ | VFloat _ => py_float v
  | VStr text =>
      let text := PyStr.strip text in
      if String.eqb text "" || String.eqb text "None" || String.eqb text "nan"
         || String.eqb text "null"
      then Ok 0%float
      else
        try_except (PyFloat.of_string (commas_to_dots text))
          (fun e => match e with ValueError | TypeError => true | _ => false end)
          (Ok 0%float)
  | _ => Ok 0%float
  end.

(** One side of the lead time: the date in a string or a [datetime], [None]
    for anything else. *)
Definition date_of_field (v : value) : result (option date) :=
  match v with
  | VStr text =>
      match PyStr.first_word text with
      | None => Raise IndexError
      | Some word =>
          let! d := Pattern.strptime_date word "%Y-%m-%d" in Ok (Some d)
      end
  | VDateTime d _ _ _ => Ok (Some d)
  | _ => Ok None
  end.

(** The inner [try] block: [anticipation_days], [None] when not computed. *)
Definition lead_time (reservation_date check_in : value) : result (option Z) :=
  try_except
    (if truthy reservation_date && truthy check_in then
       let! res_date := date_of_field reservation_date in
       let! checkin_date := date_of_field check_in in
       match res_date, checkin_date with
       | Some res_date, Some checkin_date =>
           let delta := Calendar.days_between checkin_date res_date in
           Ok (Some (Z.max 0 delta))
       | _, _ => Ok None
       end
     else Ok None)
    (fun e => match e with
              | ValueError | AttributeError | TypeError => true
              | _ => false
              end)
    (Ok None).

(** The body of the outer [try]. *)
Definition compute (normalized_reservation config : gmap string value)
    : result financials :=
  let origin :=
    PyStr.strip (PyStr.lower (py_str (get_or normalized_reservation "origin" (VStr "")))) in
  let! total_price := py_float (get_or normalized_reservation "total_price" (VFloat 0)) in
  let country :=
    PyStr.upper (PyStr.strip (py_str (get_or normalized_reservation "country" (VStr "")))) in
  let reservation_date := get_or normalized_reservation "reservation_date" (VStr "") in
  let check_in := get_or normalized_reservation "check_in" (VStr "") in
  let! nights := py_float (get_or normalized_reservation "nights" (VFloat 0)) in
  let! guests_count := py_float (get_or normalized_reservation "guests_count" (VFloat 1)) in
  let! vat_rate := py_float (get_or config "VAT_RATE" (VFloat 0)) in
  let! airbnb_fee_percent := py_float (get_or config "AIRBNB_FEE_PERCENT" (VFloat 0)) in
  let! lodgify_fee_percent := py_float (get_or config "LODGIFY_FEE_PERCENT" (VFloat 0)) in
  (* [stripe_fee_table = config.get("STRIPE_FEE_TABLE", {})] is read and not used *)
  let airbnb_fee :=
    if String.eqb origin "airbnb"
    then PyFloat.round2 (total_price * airbnb_fee_percent)%float
    else 0%float in
  let! lodgify_fee := _to_float (get_or normalized_reservation "lodgify_fee" (VFloat 0)) in
  let! stripe_fee := _to_float (get_or normalized_reservation "stripe_fee" (VFloat 0)) in
  let! dynamic_fee := _to_float (get_or normalized_reservation "dynamic_fee" (VFloat 0)) in
  let vat_amount := PyFloat.round2 (total_price * vat_rate)%float in
  let total_fees := (airbnb_fee + lodgify_fee + stripe_fee + dynamic_fee)%float in
  let net_revenue := PyFloat.round2 (total_price - total_fees - vat_amount)%float in
  let payout_expected :=
    PyFloat.round2 (total_price - airbnb_fee - lodgify_fee - stripe_fee)%float in
  let! anticipation_days := lead_time reservation_date check_in in
  let! price_per_night :=
    if PyFloat.gt nights 0 then
      let! q := PyFloat.div total_price nights in Ok (PyFloat.round2 q)
    else Ok 0%float in
  let! price_per_guest_per_night :=
    if PyFloat.gt nights 0 && PyFloat.gt guests_count 0 then
      let! q := PyFloat.div total_price (nights * guests_count)%float in
      Ok (PyFloat.round2 q)
    else Ok 0%float in
  Ok {| airbnb_fee := airbnb_fee;
        lodgify_fee := lodgify_fee;
        stripe_fee := stripe_fee;
        dynamic_fee := dynamic_fee;
        total_fees := PyFloat.round2 total_fees;
        vat_amount := vat_amount;
        net_revenue := net_revenue;
        payout_expected := payout_expected;
        anticipation_days :=
          match anticipation_days with Some n => VInt n | None => VStr "" end;
        price_per_night := price_per_night;
        price_per_guest_per_night := price_per_guest_per_night |}.

(** What the [except Exception] handler returns. *)
Definition defaults : financials :=
  {| airbnb_fee := 0; lodgify_fee := 0; stripe_fee := 0; dynamic_fee := 0;
     total_fees := 0; vat_amount := 0; net_revenue := 0; payout_expected := 0;
     anticipation_days := VStr "";
     price_per_night := 0; price_per_guest_per_night := 0 |}.

Definition calculate_financials (normalized_reservation config : gmap string value)
    : result financials :=
  try_except (compute normalized_reservation config)
    (fun _ => true)
    (Ok defaults).

End Finance.

(** ** services/invoice_service.py *)

Module InvoiceService.

(** [try: return strptime(text, fmt).date() except: pass], format after
    format. *)
Fixpoint first_format (text : string) (formats : list string) : option date :=
  match formats with
  | [] => None
  | fmt :: rest =>
      match Pattern.strptime_date text fmt with
      | Ok d => Some d
      | Raise _ => first_format text rest
      end
  end.

(** (\d{4})[-/](\d{1,2})[-/](\d{1,2}) and (\d{2})[-/](\d{1,2})[-/](\d{1,2}) *)
Definition year4_pattern : list Pattern.tok :=
  [Pattern.Digits 4 0 Pattern.F_Y; Pattern.Sep; Pattern.Digits 1 1 Pattern.F_m;
   Pattern.Sep; Pattern.Digits 1 1 Pattern.F_d].

Definition year2_pattern : list Pattern.tok :=
  [Pattern.Digits 2 0 Pattern.F_Y; Pattern.Sep; Pattern.Digits 1 1 Pattern.F_m;
   Pattern.Sep; Pattern.Digits 1 1 Pattern.F_d].

(** The fallback on the four-digit-year pattern: [None] when the pattern is
    not found or the numbers are no date. *)
Definition year4_fallback (text : string) : option date :=
  match Pattern.search year4_pattern text with
  | Some f =>
      match Calendar.make_date (Pattern.fY f) (Pattern.fm f) (Pattern.fd f) with
      | Ok d => Some d
      | Raise _ => None
      end
  | None => None
  end.

Definition year2_fallback (text : string) : option date :=
  match Pattern.search year2_pattern text with
  | Some f =>
      let y := Pattern.fY f in
      let year := if y <? 50 then 2000 + y else 1900 + y in
      match Calendar.make_date year (Pattern.fm f) (Pattern.fd f) with
      | Ok d => Some d
      | Raise _ => None
      end
  | None => None
  end.

Definition sef_formats : list string :=
  ["%y-%m-%d"; "%y/%m/%d"; "%Y/%m/%d"; "%Y-%m-%d"; "%Y-%m-%d %H:%M:%S";
   "%Y/%m/%d %H:%M:%S"; "%d/%m/%Y"; "%d-%m-%Y"; "%d/%m/%y"; "%d-%m-%y"].

Definition parse_sef_date (raw : value) : option date :=
  if negb (truthy raw) || String.eqb (PyStr.strip (py_str raw)) "" then None
  else
    let text := PyStr.strip (py_str raw) in
    match first_format text sef_formats with
    | Some d => Some d
    | None =>
        match year4_fallback text with
        | Some d => Some d
        | None => year2_fallback text
        end
    end.

Definition reservation_formats : list string :=
  ["%Y-%m-%d"; "%Y/%m/%d"; "%d/%m/%Y"; "%d-%m-%Y"].

Definition _parse_reservation_date (raw : value) : option date :=
  if negb (truthy raw) || String.eqb (PyStr.strip (py_str raw)) "" then None
  else
    let text := PyStr.strip (py_str raw) in
    match first_format text reservation_formats with
    | Some d => Some d
    | None => year4_fallback text
    end.

Definition _fuzzy_match_score (name1 name2 : string) : float :=
  if String.eqb name1 "" || String.eqb name2 "" then 0%float
  else
    let name1_norm := PyStr.strip (PyStr.lower name1) in
    let name2_norm := PyStr.strip (PyStr.lower name2) in
    if String.eqb name1_norm "" || String.eqb name2_norm "" then 0%float
    else Difflib.ratio name1_norm name2_norm.

(** The test both date filters apply to one form. *)
Definition dates_match (reservation_check_in reservation_check_out : date)
    (sef : gmap string value) : bool :=
  match parse_sef_date (get sef "Check-in date"),
        parse_sef_date (get sef "Check-out date") with
  | Some sef_check_in, Some sef_check_out =>
      Calendar.date_eqb sef_check_in reservation_check_in
      && Calendar.date_eqb sef_check_out reservation_check_out
  | _, _ => false
  end.

(** The loop that collects [matching_dates]: the forms that pass the test,
    in the order of the list. *)
Definition filter_dates (reservation_check_in reservation_check_out : date)
    (sef_forms : list (gmap string value)) : list (gmap string value) :=
  List.filter (dates_match reservation_check_in reservation_check_out) sef_forms.

Definition name_score (reservation_guest_name : string) (sef : gmap string value)
    : float :=
  let sef_name := PyStr.strip (py_str (get_or sef "Full Name" (VStr ""))) in
  _fuzzy_match_score reservation_guest_name sef_name.

(** The loop that keeps the best score and the form that reached it. *)
Fixpoint best_of (reservation_guest_name : string)
    (matching_dates : list (gmap string value))
    (best_match : option (gmap string value)) (best_score : float)
    : option (gmap string value) * float :=
  match matching_dates with
  | [] => (best_match, best_score)
  | sef :: rest =>
      let score := name_score reservation_guest_name sef in
      if PyFloat.gt score best_score
      then best_of reservation_guest_name rest (Some sef) score
      else best_of reservation_guest_name rest best_match best_score
  end.

Definition _match_primary_guest (reservation : gmap string value)
    (sef_forms : list (gmap string value)) : option (gmap string value) :=
  let reservation_check_in := _parse_reservation_date (get reservation "check_in") in
  let reservation_check_out := _parse_reservation_date (get reservation "check_out") in
  let reservation_guest_name :=
    PyStr.strip (py_str (get_or reservation "guest_name" (VStr ""))) in
  match reservation_check_in, reservation_check_out with
  | Some check_in, Some check_out =>
      let matching_dates := filter_dates check_in check_out sef_forms in
      match matching_dates with
      | [] => head sef_forms
      | _ :: _ =>
          let '(best_match, best_score) :=
            best_of reservation_guest_name matching_dates None 0%float in
          if PyFloat.gt best_score 0.65 then best_match
          else
            match matching_dates with
            | first :: _ => Some first
            | [] => head sef_forms
            end
      end
  | _, _ => None
  end.

(** What the scoring loop holds after the forms [seen]: nothing, the
    running best still 0.0 and no score above it; or a form of [seen] whose
    score is above 0.0 and below no other score of [seen]. *)
Definition best_so_far (reservation_guest_name : string)
    (seen : list (gmap string value))
    (best_match : option (gmap string value)) (best_score : float) : Prop :=
  let score := name_score reservation_guest_name in
  (best_match = None /\ best_score = 0%float
   /\ forall c, In c seen -> (0 <? score c)%float = false)
  \/ (exists b, best_match = Some b /\ In b seen /\ best_score = score b
      /\ (0 <? score b)%float = true
      /\ forall c, In c seen -> (score b <? score c)%float = false).

(** [date(2025, 1, 1)] *)
Definition cutoff_date : date := mkdate 2025 1 1.

(** The loop that collects [matching_forms]: the dates of the reservation
    may be missing here. *)
Definition matching_forms (reservation_check_in reservation_check_out : option date)
    (sef_forms : list (gmap string value)) : list (gmap string value) :=
  match reservation_check_in, reservation_check_out with
  | Some check_in, Some check_out => filter_dates check_in check_out sef_forms
  | _, _ => []
  end.

(** The stay dates of a form: all the date filter reads of it. *)
Definition stay_of (sef : gmap string value) : value * value :=
  (get sef "Check-in date", get sef "Check-out date").

(** The forms the tax counts: [matching_forms], replaced by all the forms
    when it is empty. *)
Definition counted_forms (check_in : date) (check_out : option date)
    (sef_forms : list (gmap string value)) : list (gmap string value) :=
  match matching_forms (Some check_in) check_out sef_forms with
  | [] => sef_forms
  | matching => matching
  end.

Definition _calculate_tourist_tax (reservation : gmap string value)
    (sef_forms : list (gmap string value)) : result (float * Z) :=
  let! nights := py_float (get_or reservation "nights" (VFloat 0)) in
  if PyFloat.le nights 0 then Ok (0%float, 0)
  else
    let reservation_check_in := _parse_reservation_date (get reservation "check_in") in
    let reservation_check_out := _parse_reservation_date (get reservation "check_out") in
    match reservation_check_in with
    | None => Ok (0%float, 0)
    | Some check_in =>
        if Calendar.date_ltb check_in cutoff_date then Ok (0%float, 0)
        else
          let matching_forms :=
            counted_forms check_in reservation_check_out sef_forms in
          let num_adults := Z.of_nat (length matching_forms) in
          if num_adults =? 0 then Ok (0%float, 0)
          else
            let tourist_tax := (PyFloat.of_small num_adults * nights * 2)%float in
            Ok (PyFloat.round2 tourist_tax, num_adults)
    end.

End InvoiceService.

(** ** Scenarios

    Concrete records the statements below are evaluated on. *)

Module Scenarios.

Definition record (fields : list (string * value)) : gmap string value :=
  list_to_map fields.

(** A stored row and an import that leaves its derived fields blank. *)
Definition stored_row : gmap string value :=
  record [("reservation_id", VStr "R1"); ("country", VStr "PT");
          ("payout_expected", VFloat 100)].

Definition blank_import : gmap string value :=
  record [("reservation_id", VStr "R1"); ("country", VNone);
          ("payout_expected", VStr "")].

(** A stored phone number and an import that leaves the phone blank. *)
Definition row_with_phone : gmap string value :=
  record [("reservation_id", VStr "R4"); ("guest_phone", VStr "+351910000000")].

Definition import_without_phone : gmap string value :=
  record [("reservation_id", VStr "R4"); ("guest_phone", VStr "  ")].

(** A ten-night booking in June 2025 and three registration forms: a child
    with the same stay, another guest with the same stay, a guest of
    another stay. *)
Definition long_stay : gmap string value :=
  record [("reservation_id", VStr "R2"); ("guest_name", VStr "John Smith");
          ("check_in", VStr "2025-06-01"); ("check_out", VStr "2025-06-11");
          ("nights", VInt 10)].

Definition child_form : gmap string value :=
  record [("Full Name", VStr "Jon Smith"); ("Date of birth", VStr "2015-01-01");
          ("Check-in date", VStr "2025-06-01");
          ("Check-out date", VStr "2025-06-11")].

Definition other_form : gmap string value :=
  record [("Full Name", VStr "Maria Lopez");
          ("Check-in date", VStr "25-6-1");
          ("Check-out date", VStr "2025/06/11 07:45:10")].

Definition stranger_form : gmap string value :=
  record [("Full Name", VStr "John Smith");
          ("Check-in date", VStr "2025-07-01");
          ("Check-out date", VStr "2025-07-11")].

(** A booking of 2024, before the cutoff. *)
Definition early_stay : gmap string value :=
  record [("reservation_id", VStr "R3"); ("check_in", VStr "2024-06-01");
          ("check_out", VStr "2024-06-05"); ("nights", VInt 4)].

(** Fees with a third decimal, as [total_price * 0.008] gives them. *)
Definition three_decimals : gmap string value :=
  record [("total_price", VFloat 235.76); ("lodgify_fee", VFloat 0.661);
          ("dynamic_fee", VFloat 0.914)].

(** A price of 100 and a number of nights that is no number. *)
Definition bad_nights : gmap string value :=
  record [("total_price", VFloat 100); ("nights", VStr "abc")].

(** A reservation date made of blanks. *)
Definition blank_reservation_date : gmap string value :=
  record [("total_price", VFloat 100); ("reservation_date", VStr "   ");
          ("check_in", VStr "2025-06-01")].

Definition airbnb_stay : gmap string value :=
  record [("origin", VStr " Airbnb "); ("total_price", VStr "1000");
          ("nights", VInt 4); ("guests_count", VStr "2");
          ("reservation_date", VStr "2025-05-01 10:00:00");
          ("check_in", VStr "2025-06-01"); ("lodgify_fee", VStr "1,5")].

Definition rates : gmap string value :=
  record [("VAT_RATE", VFloat 0.06); ("AIRBNB_FEE_PERCENT", VStr "0.15")].

Definition a_day : date := mkdate 2026 1 15.

End Scenarios.

(** * Properties *)

(** ** The order of floats *)

Section float_order.
Import PyFloat.

Lemma SFltb_rank (x y : spec_float) :
  SFltb x y = true <->
  exists a b, rank x = Some a /\ rank y = Some b /\ rank_lt a b.
Proof.
  unfold SFltb.
  destruct x as [sx|sx| |sx mx ex], y as [sy|sy| |sy my ey]; simpl;
    try (split; [discriminate | intros (a & b & Ha & Hb & _); discriminate]).
  all: try destruct sx; try destruct sy; simpl.
  all: try (split; [discriminate
                   | intros (a & b & Ha & Hb & Hlt);
                     injection Ha as <-; injection Hb as <-;
                     simpl in Hlt; lia]).
  all: try (split; [intros _; do 2 eexists; repeat split; simpl; lia
                   | reflexivity]).
  all: rewrite Pos.compare_cont_spec; simpl.
  all: destruct (Z.compare_spec ex ey), (Pos.compare_spec mx my); simpl;
      (split; [try discriminate; intros _; do 2 eexists; repeat split;
               simpl; lia
              | try reflexivity; intros (a & b & Ha & Hb & Hlt);
                injection Ha as <-; injection Hb as <-; simpl in Hlt; lia]).
Qed.

Lemma ltb_rank (x y : float) :
  (x <? y)%float = true <->
  exists a b, rank (Prim2SF x) = Some a /\ rank (Prim2SF y) = Some b
              /\ rank_lt a b.
Proof. rewrite ltb_spec. apply SFltb_rank. Qed.

Lemma rank_lt_trans a b c : rank_lt a b -> rank_lt b c -> rank_lt a c.
Proof. destruct a as [[? ?] ?], b as [[? ?] ?], c as [[? ?] ?]. simpl. lia. Qed.

Lemma rank_lt_total a b c : rank_lt a c -> ~ rank_lt b c -> rank_lt a b.
Proof. destruct a as [[? ?] ?], b as [[? ?] ?], c as [[? ?] ?]. simpl. lia. Qed.

Lemma ltb_trans (x y z : float) :
  (x <? y)%float = true -> (y <? z)%float = true -> (x <? z)%float = true.
Proof.
  rewrite !ltb_rank. intros (a & b & Ha & Hb & Hab) (b' & c & Hb' & Hc & Hbc).
  rewrite Hb in Hb'. injection Hb' as <-.
  exists a, c. eauto using rank_lt_trans.
Qed.

(** [x < z] and [y], a number, is not below [z]: then [x < y]. *)
Lemma ltb_below (w x y z : float) :
  (w <? y)%float = true -> (x <? z)%float = true -> (y <? z)%float = false ->
  (x <? y)%float = true.
Proof.
  intros Hwy Hxz Hyz. apply ltb_rank in Hwy as (w' & b & _ & Hb & _).
  apply ltb_rank in Hxz as (a & c & Ha & Hc & Hac).
  apply ltb_rank. exists a, b. repeat split; try assumption.
  apply (rank_lt_total a b c Hac). intros Hbc.
  assert ((y <? z)%float = true) as H by (apply ltb_rank; eauto).
  congruence.
Qed.

Lemma ltb_irrefl (x : float) : (x <? x)%float = false.
Proof.
  destruct (x <? x)%float eqn:H; [|reflexivity].
  apply ltb_rank in H as (a & b & Ha & Hb & Hab).
  rewrite Ha in Hb. injection Hb as <-.
  destruct a as [[? ?] ?]. simpl in Hab. lia.
Qed.

End float_order.

(** ** The merge of two records *)

Section merge_facts.
Import ReservationMerger.

(** A dictionary filled by one assignment per key of a set. *)
Lemma lookup_fold_keys (f : string -> value) (keys : gset string) (key : string) :
  set_fold (fun k (m : gmap string value) => <[k := f k]> m) ∅ keys !! key =
  if decide (key ∈ keys) then Some (f key) else None.
Proof.
  assert ((key ∈ keys ->
           set_fold (fun k (m : gmap string value) => <[k := f k]> m) ∅ keys !! key
           = Some (f key)) /\
          (key ∉ keys ->
           set_fold (fun k (m : gmap string value) => <[k := f k]> m) ∅ keys !! key
           = None)) as [Hin Hout].
  { apply (set_fold_ind_L
             (fun (m : gmap string value) (X : gset string) =>
                (key ∈ X -> m !! key = Some (f key)) /\
                (key ∉ X -> m !! key = None))).
    - split; [intros H; set_solver | intros _; apply lookup_empty].
    - intros k X m Hk [Hin Hout]. destruct (decide (k = key)) as [->|Hne].
      + rewrite lookup_insert_eq. split; [done | intros H; set_solver].
      + rewrite lookup_insert_ne by done. split; intros H.
        * apply Hin. apply elem_of_union in H as [H|H]; [|done].
          apply elem_of_singleton in H. congruence.
        * apply Hout. intros HX. apply H, elem_of_union. by right. }
  case_decide; auto.
Qed.

Lemma lookup_merge (existing new : gmap string value) (key : string) :
  merge existing new !! key =
  if decide (key ∈ dom existing ∪ dom new)
  then Some (merge_key existing new key) else None.
Proof. unfold merge. apply lookup_fold_keys. Qed.

Lemma dom_merge (existing new : gmap string value) :
  dom (merge existing new) = dom existing ∪ dom new.
Proof.
  apply set_eq. intros k. rewrite elem_of_dom, lookup_merge.
  case_decide as Hk; split; intros H; try done.
Qed.

Lemma get_merge (existing new : gmap string value) (key : string) :
  key ∈ dom existing ∪ dom new ->
  get (merge existing new) key = merge_key existing new key.
Proof.
  intros Hk. unfold get. rewrite lookup_merge. by rewrite decide_True.
Qed.

Lemma get_or_not_none (d : gmap string value) (key : string) (dflt : value) :
  is_none (get d key) = false -> get_or d key dflt = get d key.
Proof.
  unfold get, get_or. destruct (d !! key); simpl; [done | discriminate].
Qed.

Lemma get_or_merge (existing new : gmap string value) (key : string) dflt :
  key ∈ dom existing ∪ dom new ->
  get_or (merge existing new) key dflt = merge_key existing new key.
Proof.
  intros Hk. unfold get_or. rewrite lookup_merge. by rewrite decide_True.
Qed.

(** Merging the same incoming record a second time recomputes, key by key,
    the value the first merge stored. *)
Lemma merge_key_stable (existing new : gmap string value) (key : string) :
  key ∈ dom existing ∪ dom new ->
  merge_key (merge existing new) new key = merge_key existing new key.
Proof.
  intros Hk. unfold merge_key at 1.
  rewrite (get_merge _ _ _ Hk), (get_or_merge _ _ _ _ Hk).
  unfold merge_key.
  destruct (decide (key ∈ FINANCIAL_FIELDS)) as [Hf|Hf].
  - destruct (negb (is_none (get new key)) && negb (is_blank_str (get new key)));
      [done|].
    destruct (is_none (get existing key)) eqn:He; simpl; [done|].
    rewrite (get_or_not_none existing key _ He). by rewrite He.
  - destruct (decide (key ∈ ALWAYS_OVERWRITE_FIELDS)); [done|].
    destruct (_is_empty (get existing key)) eqn:He,
             (_is_empty (get new key)) eqn:Hn,
             (is_none (get new key)) eqn:Hnn; simpl;
      rewrite ?He, ?Hn, ?Hnn; simpl; done.
Qed.

End merge_facts.

(** C1. Merging the same incoming record twice changes nothing more:
    [merge(merge(existing, incoming), incoming) == merge(existing, incoming)]
    for every pair of records. *)
Theorem merge_idempotent (existing new : gmap string value) :
  ReservationMerger.merge (ReservationMerger.merge existing new) new
  = ReservationMerger.merge existing new.
Proof.
  apply map_eq. intros key.
  rewrite (lookup_merge (ReservationMerger.merge existing new)), dom_merge.
  rewrite lookup_merge.
  destruct (decide (key ∈ dom existing ∪ dom new)) as [Hk|Hk].
  - rewrite decide_True by (apply elem_of_union; by left).
    f_equal. by apply merge_key_stable.
  - rewrite decide_False; [done|].
    intros [H|H]%elem_of_union; [done|].
    apply Hk, elem_of_union. by right.
Qed.

(** C10. The keys of the merged record are exactly the keys of the existing
    record together with the keys of the incoming one: no field is dropped
    and none is invented. *)
Theorem merge_keys_union (existing new : gmap string value) :
  dom (ReservationMerger.merge existing new) = dom existing ∪ dom new
  /\ (forall key, is_Some (ReservationMerger.merge existing new !! key)
                  <-> is_Some (existing !! key) \/ is_Some (new !! key)).
Proof.
  split; [apply dom_merge|].
  intros key. rewrite <- !elem_of_dom, dom_merge. apply elem_of_union.
Qed.

(** C2, as the code has it. The guest country is overwritten whatever the
    stored value: once the key is in either record, the merged record holds
    the incoming value under it, and the empty string when the incoming
    value is absent or [None]. *)
Theorem merge_country_overwritten (existing new : gmap string value) :
  "country" ∈ dom existing ∪ dom new ->
  ReservationMerger.merge existing new !! "country"
  = Some (match new !! "country" with
          | Some VNone | None => VStr ""
          | Some incoming => incoming
          end).
Proof.
  intros Hk. rewrite lookup_merge, decide_True by done. f_equal.
  unfold ReservationMerger.merge_key.
  rewrite decide_False by (vm_compute; intros H; discriminate H).
  rewrite decide_True by (vm_compute; reflexivity).
  unfold get. destruct (new !! "country") as [[]|]; reflexivity.
Qed.

Lemma merge_country_overwritten_witness :
  "country" ∈ dom Scenarios.stored_row ∪ dom Scenarios.blank_import
  /\ ReservationMerger.merge Scenarios.stored_row Scenarios.blank_import
       !! "country" = Some (VStr "").
Proof.
  assert ("country" ∈ dom Scenarios.stored_row ∪ dom Scenarios.blank_import)
    as Hk by (apply elem_of_union; left; apply elem_of_dom; vm_compute; eauto).
  split; [exact Hk|].
  exact (merge_country_overwritten Scenarios.stored_row Scenarios.blank_import Hk).
Defined.

(** C2, as stated, fails: [payout_expected] is in the always-overwrite set,
    yet a blank incoming value leaves the stored 100.0 in place (the
    financial-field branch is taken first); and an incoming [None] for the
    country is stored as the empty string, not as [None]. *)
Lemma always_overwrite_counterexample :
  bool_decide ("payout_expected" ∈ ReservationMerger.ALWAYS_OVERWRITE_FIELDS) = true
  /\ Scenarios.blank_import !! "payout_expected" = Some (VStr "")
  /\ ReservationMerger.merge Scenarios.stored_row Scenarios.blank_import
       !! "payout_expected" = Some (VFloat 100)
  /\ Scenarios.blank_import !! "country" = Some VNone
  /\ ReservationMerger.merge Scenarios.stored_row Scenarios.blank_import
       !! "country" = Some (VStr "").
Proof. vm_compute. repeat split; reflexivity. Qed.

(** ** Dates and the tourist tax *)

(** C8. A number is read as a spreadsheet serial date, days counted from
    1899-12-30: 45212 and 45212.0 both give 2023-10-13, a day of October
    2023. The text "45212" is not read that way: no format matches it and
    [normalize_date] raises [ValueError]. *)
Theorem normalize_date_serial_inputs :
  DateUtils.normalize_date (VInt 45212) = Ok "2023-10-13"
  /\ DateUtils.normalize_date (VFloat 45212) = DateUtils.normalize_date (VInt 45212)
  /\ Calendar.days_between (mkdate 2023 10 13) DateUtils.epoch = 45212
  /\ DateUtils.normalize_date (VStr "45212") = Raise ValueError.
Proof. vm_compute. repeat split; reflexivity. Qed.

(** C9. Born 2009-06-03, staying 2025-06-01 to 2025-06-05: the ages on the
    four nights are 15, 15, 16, 16, so two nights are chargeable and the tax
    is 4, on any day that is not before the birth date. *)
Theorem tax_turning_16_during_stay (today : date) :
  Calendar.date_ltb today (mkdate 2009 6 3) = false ->
  map (fun i => TouristTax.age_at
                  (Calendar.days_between (Calendar.fromordinal
                     (Calendar.toordinal (mkdate 2025 6 1) + i)) (mkdate 2009 6 3)))
      [0; 1; 2; 3]
  = [Ok 15; Ok 15; Ok 16; Ok 16]
  /\ TouristTax.count_chargeable 4 0 (mkdate 2025 6 1) (mkdate 2009 6 3) 0 = Ok 2
  /\ TouristTax.calculate_tourist_tax today
       (VStr "2025-06-01") (VStr "2025-06-05") (VStr "2009-06-03") = Ok 4.
Proof.
  intros Htoday.
  split; [vm_compute; reflexivity|].
  split; [vm_compute; reflexivity|].
  unfold TouristTax.calculate_tourist_tax.
  replace (TouristTax.parse_dates (VStr "2025-06-01") (VStr "2025-06-05")
             (VStr "2009-06-03"))
    with (Ok (mkdate 2025 6 1, mkdate 2025 6 5, mkdate 2009 6 3))
    by (vm_compute; reflexivity).
  cbn [bind].
  replace (Calendar.date_leb (mkdate 2025 6 5) (mkdate 2025 6 1)) with false
    by (vm_compute; reflexivity).
  rewrite Htoday.
  vm_compute. reflexivity.
Qed.

Lemma tax_turning_16_during_stay_witness :
  Calendar.date_ltb Scenarios.a_day (mkdate 2009 6 3) = false
  /\ TouristTax.calculate_tourist_tax Scenarios.a_day
       (VStr "2025-06-01") (VStr "2025-06-05") (VStr "2009-06-03") = Ok 4.
Proof.
  assert (Calendar.date_ltb Scenarios.a_day (mkdate 2009 6 3) = false) as H
    by (vm_compute; reflexivity).
  split; [exact H|].
  exact (proj2 (proj2 (tax_turning_16_during_stay Scenarios.a_day H))).
Defined.

(** C4, as stated, fails: [calculate_tourist_tax] has no cutoff. A stay of
    June 2024, before 2025-01-01, by a guest born in 2000 is taxed 8. *)
Lemma tax_before_cutoff_counterexample :
  Calendar.date_ltb (mkdate 2024 6 1) InvoiceService.cutoff_date = true
  /\ TouristTax.calculate_tourist_tax Scenarios.a_day
       (VStr "2024-06-01") (VStr "2024-06-05") (VStr "2000-01-01") = Ok 8.
Proof. vm_compute. split; reflexivity. Qed.

(** C4, as the code has it. The cutoff is applied by the invoice pipeline:
    for a booking whose check-in is a date before 2025-01-01 and whose
    number of nights is a number, [_calculate_tourist_tax] returns no tax
    and no taxed guest, whatever the forms. *)
Theorem invoice_tax_zero_before_cutoff
    (reservation : gmap string value) (sef_forms : list (gmap string value))
    (nights : float) (check_in : date) :
  py_float (get_or reservation "nights" (VFloat 0)) = Ok nights ->
  InvoiceService._parse_reservation_date (get reservation "check_in")
    = Some check_in ->
  Calendar.date_ltb check_in InvoiceService.cutoff_date = true ->
  InvoiceService._calculate_tourist_tax reservation sef_forms = Ok (0%float, 0).
Proof.
  intros Hn Hci Hlt. unfold InvoiceService._calculate_tourist_tax.
  rewrite Hn. cbn [bind].
  destruct (PyFloat.le nights 0); [reflexivity|].
  rewrite Hci, Hlt. reflexivity.
Qed.

Lemma invoice_tax_zero_before_cutoff_witness :
  py_float (get_or Scenarios.early_stay "nights" (VFloat 0)) = Ok 4%float
  /\ InvoiceService._parse_reservation_date (get Scenarios.early_stay "check_in")
     = Some (mkdate 2024 6 1)
  /\ Calendar.date_ltb (mkdate 2024 6 1) InvoiceService.cutoff_date = true
  /\ InvoiceService._calculate_tourist_tax Scenarios.early_stay
       [Scenarios.child_form] = Ok (0%float, 0).
Proof.
  assert (py_float (get_or Scenarios.early_stay "nights" (VFloat 0)) = Ok 4%float)
    as H1 by (vm_compute; reflexivity).
  assert (InvoiceService._parse_reservation_date
            (get Scenarios.early_stay "check_in") = Some (mkdate 2024 6 1))
    as H2 by (vm_compute; reflexivity).
  assert (Calendar.date_ltb (mkdate 2024 6 1) InvoiceService.cutoff_date = true)
    as H3 by (vm_compute; reflexivity).
  split; [exact H1|]. split; [exact H2|]. split; [exact H3|].
  exact (invoice_tax_zero_before_cutoff Scenarios.early_stay
           [Scenarios.child_form] 4%float (mkdate 2024 6 1) H1 H2 H3).
Defined.

(** ** The invoice pipeline *)

Section invoice_facts.
Import InvoiceService.

Lemma filter_dates_stay (check_in check_out : date)
    (forms forms' : list (gmap string value)) :
  map stay_of forms = map stay_of forms' ->
  length (filter_dates check_in check_out forms)
  = length (filter_dates check_in check_out forms')
  /\ length forms = length forms'.
Proof.
  revert forms'. induction forms as [|f forms IH]; intros [|f' forms'] Hmap;
    try discriminate; [split; reflexivity|].
  injection Hmap as Hin Hout Hrest. destruct (IH _ Hrest) as [IH1 IH2].
  split; [|simpl; congruence].
  unfold filter_dates in *. simpl.
  assert (dates_match check_in check_out f = dates_match check_in check_out f')
    as ->.
  { unfold dates_match. rewrite Hin, Hout. reflexivity. }
  destruct (dates_match check_in check_out f'); simpl; congruence.
Qed.

Lemma counted_forms_stay (check_in : date) (check_out : option date)
    (forms forms' : list (gmap string value)) :
  map stay_of forms = map stay_of forms' ->
  length (counted_forms check_in check_out forms)
  = length (counted_forms check_in check_out forms').
Proof.
  intros Hmap. unfold counted_forms, matching_forms.
  destruct check_out as [check_out|]; [|by destruct (filter_dates_stay check_in check_in _ _ Hmap)].
  destruct (filter_dates_stay check_in check_out _ _ Hmap) as [H1 H2].
  destruct (filter_dates check_in check_out forms),
           (filter_dates check_in check_out forms'); simpl in *; congruence.
Qed.

Lemma invoice_tax_formula
    (reservation : gmap string value) (sef_forms : list (gmap string value))
    (nights : float) (check_in : date) :
  py_float (get_or reservation "nights" (VFloat 0)) = Ok nights ->
  PyFloat.le nights 0 = false ->
  _parse_reservation_date (get reservation "check_in") = Some check_in ->
  Calendar.date_ltb check_in cutoff_date = false ->
  _calculate_tourist_tax reservation sef_forms =
  let guests :=
    Z.of_nat (length (counted_forms check_in
                        (_parse_reservation_date (get reservation "check_out"))
                        sef_forms)) in
  if guests =? 0 then Ok (0%float, 0)
  else Ok (PyFloat.round2 (PyFloat.of_small guests * nights * 2)%float, guests).
Proof.
  intros Hn Hle Hci Hlt. unfold _calculate_tourist_tax.
  rewrite Hn. cbn [bind]. rewrite Hle, Hci, Hlt. reflexivity.
Qed.

End invoice_facts.

(** C3, as the code has it. For a booking with a positive number of nights
    and a check-in on or after 2025-01-01, the tax of the invoice pipeline
    is 2 per night for every counted form (the forms of the same stay, or
    all forms when none is of the same stay), rounded to cents: every night
    of the stay counts, and nothing of a form but its stay dates is read,
    so no birth date and no 7-night cap enter the amount. *)
Theorem invoice_tax_counts_forms_times_nights
    (reservation : gmap string value) (sef_forms : list (gmap string value))
    (nights : float) (check_in : date) :
  py_float (get_or reservation "nights" (VFloat 0)) = Ok nights ->
  PyFloat.le nights 0 = false ->
  InvoiceService._parse_reservation_date (get reservation "check_in")
    = Some check_in ->
  Calendar.date_ltb check_in InvoiceService.cutoff_date = false ->
  InvoiceService._calculate_tourist_tax reservation sef_forms
  = (let guests :=
       Z.of_nat (length (InvoiceService.counted_forms check_in
                           (InvoiceService._parse_reservation_date
                              (get reservation "check_out"))
                           sef_forms)) in
     if guests =? 0 then Ok (0%float, 0)
     else Ok (PyFloat.round2 (PyFloat.of_small guests * nights * 2)%float, guests))
  /\ (forall other_forms : list (gmap string value),
        map InvoiceService.stay_of other_forms
        = map InvoiceService.stay_of sef_forms ->
        InvoiceService._calculate_tourist_tax reservation other_forms
        = InvoiceService._calculate_tourist_tax reservation sef_forms).
Proof.
  intros Hn Hle Hci Hlt. split.
  - by apply invoice_tax_formula.
  - intros other_forms Hmap.
    rewrite (invoice_tax_formula _ other_forms _ _ Hn Hle Hci Hlt).
    rewrite (invoice_tax_formula _ sef_forms _ _ Hn Hle Hci Hlt).
    cbv zeta. by rewrite (counted_forms_stay _ _ _ _ Hmap).
Qed.

Lemma invoice_tax_counts_forms_times_nights_witness :
  py_float (get_or Scenarios.long_stay "nights" (VFloat 0)) = Ok 10%float
  /\ PyFloat.le 10 0 = false
  /\ InvoiceService._parse_reservation_date (get Scenarios.long_stay "check_in")
     = Some (mkdate 2025 6 1)
  /\ Calendar.date_ltb (mkdate 2025 6 1) InvoiceService.cutoff_date = false
  /\ InvoiceService._calculate_tourist_tax Scenarios.long_stay
       [Scenarios.child_form; Scenarios.other_form; Scenarios.stranger_form]
     = Ok (40%float, 2).
Proof.
  assert (py_float (get_or Scenarios.long_stay "nights" (VFloat 0)) = Ok 10%float)
    as H1 by (vm_compute; reflexivity).
  assert (PyFloat.le 10 0 = false) as H2 by (vm_compute; reflexivity).
  assert (InvoiceService._parse_reservation_date
            (get Scenarios.long_stay "check_in") = Some (mkdate 2025 6 1))
    as H3 by (vm_compute; reflexivity).
  assert (Calendar.date_ltb (mkdate 2025 6 1) InvoiceService.cutoff_date = false)
    as H4 by (vm_compute; reflexivity).
  split; [exact H1|]. split; [exact H2|]. split; [exact H3|]. split; [exact H4|].
  rewrite (proj1 (invoice_tax_counts_forms_times_nights Scenarios.long_stay
                    [Scenarios.child_form; Scenarios.other_form;
                     Scenarios.stranger_form]
                    10%float (mkdate 2025 6 1) H1 H2 H3 H4)).
  vm_compute. reflexivity.
Defined.

(** C3, as stated, fails: one form of the same stay, ten nights. The
    invoice pipeline charges 20 for one guest, more than 7 nights at 2; and
    the guest of that form, born in 2015, owes nothing by the per-guest
    rule of [calculate_tourist_tax]. *)
Lemma invoice_tax_counterexample :
  InvoiceService._calculate_tourist_tax Scenarios.long_stay [Scenarios.child_form]
  = Ok (20%float, 1)
  /\ (PyFloat.of_small (7 * 2) <? 20)%float = true
  /\ TouristTax.calculate_tourist_tax Scenarios.a_day
       (get Scenarios.child_form "Check-in date")
       (get Scenarios.child_form "Check-out date")
       (get Scenarios.child_form "Date of birth") = Ok 0.
Proof. vm_compute. repeat split; reflexivity. Qed.

Section matcher_facts.
Import InvoiceService.

Variable guest_name : string.

Local Abbreviation score := (name_score guest_name).

Lemma best_of_invariant (todo seen : list (gmap string value))
    (best_match : option (gmap string value)) (best_score : float) :
  best_so_far guest_name seen best_match best_score ->
  best_so_far guest_name (seen ++ todo)%list
    (fst (best_of guest_name todo best_match best_score))
    (snd (best_of guest_name todo best_match best_score)).
Proof.
  revert seen best_match best_score.
  induction todo as [|sef todo IH]; intros seen best_match best_score Hbest.
  - rewrite app_nil_r. exact Hbest.
  - simpl. unfold PyFloat.gt.
    replace (seen ++ sef :: todo)%list with ((seen ++ [sef]) ++ todo)%list
      by (rewrite <- app_assoc; reflexivity).
    destruct (best_score <? score sef)%float eqn:Hgt; apply IH.
    + right. exists sef. split; [reflexivity|].
      split; [apply in_or_app; right; left; reflexivity|].
      split; [reflexivity|].
      destruct Hbest as [(-> & -> & Hnone)|(b & -> & Hb & -> & Hpos & Hmax)].
      * split; [exact Hgt|].
        intros c [Hc|[<-|[]]]%in_app_or; [|apply ltb_irrefl].
        destruct (score sef <? score c)%float eqn:Hlt; [|reflexivity].
        rewrite <- (Hnone c Hc). symmetry. exact (ltb_trans _ _ _ Hgt Hlt).
      * split; [exact (ltb_trans _ _ _ Hpos Hgt)|].
        intros c [Hc|[<-|[]]]%in_app_or; [|apply ltb_irrefl].
        destruct (score sef <? score c)%float eqn:Hlt; [|reflexivity].
        rewrite <- (Hmax c Hc). symmetry. exact (ltb_trans _ _ _ Hgt Hlt).
    + destruct Hbest as [(-> & -> & Hnone)|(b & -> & Hb & -> & Hpos & Hmax)].
      * left. split; [reflexivity|]. split; [reflexivity|].
        intros c [Hc|[<-|[]]]%in_app_or; [by apply Hnone | exact Hgt].
      * right. exists b. split; [reflexivity|].
        split; [apply in_or_app; by left|]. split; [reflexivity|].
        split; [exact Hpos|].
        intros c [Hc|[<-|[]]]%in_app_or; [by apply Hmax | exact Hgt].
Qed.

Lemma best_of_result (matching : list (gmap string value)) :
  best_so_far guest_name matching
    (fst (best_of guest_name matching None 0%float))
    (snd (best_of guest_name matching None 0%float)).
Proof.
  apply (best_of_invariant matching [] None 0%float).
  left. split; [reflexivity|]. split; [reflexivity|]. intros c [].
Qed.

End matcher_facts.

(** C7. For a booking whose check-in and check-out parse, with [matching] the
    forms whose parsed check-in and check-out both equal the booking's, in
    the order of the list: when some matching form scores above 0.65 against
    the guest name, the result is a matching form whose score is above 0.65
    and below no other matching score; when there are matching forms and
    none scores above 0.65, the result is the first of them; when no form
    matches, the result is the first form of the whole list; and the result
    is [None] only for the empty list. *)
Theorem match_primary_guest_ladder
    (reservation : gmap string value) (sef_forms : list (gmap string value))
    (check_in check_out : date) :
  InvoiceService._parse_reservation_date (get reservation "check_in")
    = Some check_in ->
  InvoiceService._parse_reservation_date (get reservation "check_out")
    = Some check_out ->
  let matching :=
    List.filter (InvoiceService.dates_match check_in check_out) sef_forms in
  let score :=
    InvoiceService.name_score
      (PyStr.strip (py_str (get_or reservation "guest_name" (VStr "")))) in
  let result := InvoiceService._match_primary_guest reservation sef_forms in
  ((exists c, In c matching /\ (0.65 <? score c)%float = true) ->
   exists best, result = Some best /\ In best matching
     /\ (0.65 <? score best)%float = true
     /\ forall c, In c matching -> (score best <? score c)%float = false)
  /\ (matching <> [] ->
      (forall c, In c matching -> (0.65 <? score c)%float = false) ->
      result = head matching)
  /\ (matching = [] -> result = head sef_forms)
  /\ (result = None <-> sef_forms = []).
Proof.
  intros Hci Hco matching score result. subst score.
  set (name := PyStr.strip (py_str (get_or reservation "guest_name" (VStr "")))).
  assert (result =
          match matching with
          | [] => head sef_forms
          | first :: _ =>
              if (0.65 <? snd (InvoiceService.best_of name matching None 0%float))%float
              then fst (InvoiceService.best_of name matching None 0%float)
              else Some first
          end) as Hresult.
  { unfold result, InvoiceService._match_primary_guest.
    rewrite Hci, Hco. cbv zeta.
    unfold InvoiceService.filter_dates. fold matching. fold name.
    destruct matching as [|first rest]; [reflexivity|].
    destruct (InvoiceService.best_of name (first :: rest) None 0%float)
      as [best_match best_score].
    reflexivity. }
  pose proof (best_of_result name matching) as Hbest.
  destruct (InvoiceService.best_of name matching None 0%float)
    as [best_match best_score].
  unfold InvoiceService.best_so_far in Hbest. simpl in Hresult, Hbest.
  assert ((0 <? 0.65)%float = true) as Hpos065 by (vm_compute; reflexivity).
  assert ((0.65 <? 0)%float = false) as Hneg065 by (vm_compute; reflexivity).
  split; [|split; [|split; [|split]]].
  - (* a matching form scores above 0.65 *)
    intros (c & Hc & Hscore).
    destruct matching as [|first rest] eqn:Hm; [destruct Hc|].
    destruct Hbest as [(-> & -> & Hnone)|(b & -> & Hb & -> & Hpos & Hmax)].
    + pose proof (ltb_trans 0%float 0.65%float _ Hpos065 Hscore) as Habove.
      rewrite (Hnone c Hc) in Habove. discriminate.
    + assert ((0.65 <? InvoiceService.name_score name b)%float = true) as Hb065
        by exact (ltb_below _ _ _ _ Hpos Hscore (Hmax c Hc)).
      exists b. rewrite Hresult, Hb065. auto.
  - (* matching forms, none above 0.65 *)
    intros Hne Hlow.
    destruct matching as [|first rest] eqn:Hm; [congruence|].
    rewrite Hresult.
    destruct Hbest as [(-> & -> & Hnone)|(b & -> & Hb & -> & Hpos & Hmax)].
    + rewrite Hneg065. reflexivity.
    + rewrite (Hlow b Hb). reflexivity.
  - (* no matching form *)
    intros Hnil. rewrite Hresult, Hnil. reflexivity.
  - (* None only for the empty list *)
    intros Hnone. rewrite Hresult in Hnone.
    destruct matching as [|first rest] eqn:Hm.
    + destruct sef_forms; [reflexivity | discriminate].
    + destruct Hbest as [(-> & -> & _)|(b & -> & _ & -> & _)].
      * rewrite Hneg065 in Hnone. discriminate.
      * destruct (0.65 <? InvoiceService.name_score name b)%float; discriminate.
  - intros ->. rewrite Hresult. subst matching. reflexivity.
Qed.

Lemma match_primary_guest_ladder_witness :
  InvoiceService._parse_reservation_date (get Scenarios.long_stay "check_in")
    = Some (mkdate 2025 6 1)
  /\ InvoiceService._parse_reservation_date (get Scenarios.long_stay "check_out")
     = Some (mkdate 2025 6 11)
  /\ exists best,
       InvoiceService._match_primary_guest Scenarios.long_stay
         [Scenarios.stranger_form; Scenarios.other_form; Scenarios.child_form]
       = Some best
       /\ (0.65 <? InvoiceService.name_score "John Smith" best)%float = true.
Proof.
  assert (InvoiceService._parse_reservation_date
            (get Scenarios.long_stay "check_in") = Some (mkdate 2025 6 1))
    as H1 by (vm_compute; reflexivity).
  assert (InvoiceService._parse_reservation_date
            (get Scenarios.long_stay "check_out") = Some (mkdate 2025 6 11))
    as H2 by (vm_compute; reflexivity).
  assert (PyStr.strip (py_str (get_or Scenarios.long_stay "guest_name" (VStr "")))
          = "John Smith") as Hname by (vm_compute; reflexivity).
  split; [exact H1|]. split; [exact H2|].
  destruct (proj1 (match_primary_guest_ladder Scenarios.long_stay
                     [Scenarios.stranger_form; Scenarios.other_form;
                      Scenarios.child_form]
                     (mkdate 2025 6 1) (mkdate 2025 6 11) H1 H2))
    as (best & Hresult & _ & Hscore & _).
  { exists Scenarios.child_form. split.
    - apply filter_In. split.
      + right. right. left. reflexivity.
      + vm_compute. reflexivity.
    - vm_compute. reflexivity. }
  exists best. split; [exact Hresult|].
  rewrite Hname in Hscore. exact Hscore.
Defined.

(** ** The financial breakdown *)

Section finance_facts.
Import Finance.

(** A step of the body that did not raise. *)
Lemma bind_Ok {A B : Type} (r : result A) (k : A -> result B) (b : B) :
  bind r k = Ok b -> exists a, r = Ok a /\ k a = Ok b.
Proof. destruct r as [a|e]; simpl; [eauto | discriminate]. Qed.

Lemma compute_identities (normalized_reservation config : gmap string value)
    (f : financials) :
  compute normalized_reservation config = Ok f ->
  total_fees f
  = PyFloat.round2 (airbnb_fee f + lodgify_fee f + stripe_fee f + dynamic_fee f)%float
  /\ exists total_price,
       py_float (get_or normalized_reservation "total_price" (VFloat 0))
         = Ok total_price
       /\ net_revenue f
          = PyFloat.round2
              (total_price
               - (airbnb_fee f + lodgify_fee f + stripe_fee f + dynamic_fee f)
               - vat_amount f)%float
       /\ payout_expected f
          = PyFloat.round2
              (total_price - airbnb_fee f - lodgify_fee f - stripe_fee f)%float.
Proof.
  unfold compute. cbv zeta. intros H.
  repeat match type of H with
         | bind _ _ = Ok _ =>
             let a := fresh "a" in
             let Ha := fresh "Ha" in
             apply bind_Ok in H as (a & Ha & H)
         end.
  injection H as <-. simpl.
  split; [reflexivity|]. eexists. split; [eassumption|]. split; reflexivity.
Qed.

End finance_facts.

(** C5, as the code has it. Whenever the breakdown is computed, that is
    the body of [calculate_financials] raises nothing, it is what the
    function returns, [total_fees] is the sum of the four fees rounded to two
    decimals, and [net_revenue] is [total_price] minus that sum, not rounded,
    minus [vat_amount], rounded to two decimals. *)
Theorem financials_rounded_identities
    (normalized_reservation config : gmap string value)
    (f : Finance.financials) :
  Finance.compute normalized_reservation config = Ok f ->
  Finance.calculate_financials normalized_reservation config = Ok f
  /\ Finance.total_fees f
     = PyFloat.round2 (Finance.airbnb_fee f + Finance.lodgify_fee f
                       + Finance.stripe_fee f + Finance.dynamic_fee f)%float
  /\ exists total_price,
       py_float (get_or normalized_reservation "total_price" (VFloat 0))
         = Ok total_price
       /\ Finance.net_revenue f
          = PyFloat.round2
              (total_price
               - (Finance.airbnb_fee f + Finance.lodgify_fee f
                  + Finance.stripe_fee f + Finance.dynamic_fee f)
               - Finance.vat_amount f)%float.
Proof.
  intros Hf. split.
  - unfold Finance.calculate_financials. rewrite Hf. reflexivity.
  - destruct (compute_identities _ _ _ Hf) as (Hfees & tp & Htp & Hnet & _).
    split; [exact Hfees|]. exists tp. split; assumption.
Qed.

Lemma financials_rounded_identities_witness :
  Finance.compute Scenarios.airbnb_stay Scenarios.rates
  = Ok (Finance.mkfinancials 150 1.5 0 0 151.5 60 788.5 848.5 (VInt 31) 250 125)
  /\ Finance.calculate_financials Scenarios.airbnb_stay Scenarios.rates
     = Ok (Finance.mkfinancials 150 1.5 0 0 151.5 60 788.5 848.5 (VInt 31) 250 125).
Proof.
  assert (Finance.compute Scenarios.airbnb_stay Scenarios.rates
          = Ok (Finance.mkfinancials 150 1.5 0 0 151.5 60 788.5 848.5
                  (VInt 31) 250 125)) as H by (vm_compute; reflexivity).
  split; [exact H|].
  exact (proj1 (financials_rounded_identities _ _ _ H)).
Defined.

(** C5, as stated, fails twice. With fees of three decimals the two
    roundings add up: [total_fees] is 1.58, [net_revenue] is 234.19, and
    235.76 - 1.58 - 0.0 is further than 0.01 from it. And when the body
    raises (a number of nights that is no number) the breakdown is all zero
    while [total_price] is 100. *)
Lemma financials_tolerance_counterexample :
  (exists f,
     Finance.calculate_financials Scenarios.three_decimals ∅ = Ok f
     /\ Finance.compute Scenarios.three_decimals ∅ = Ok f
     /\ (abs (Finance.total_fees f
              - (Finance.airbnb_fee f + Finance.lodgify_fee f
                 + Finance.stripe_fee f + Finance.dynamic_fee f)) <=? 0.01)%float
        = true
     /\ (abs (Finance.net_revenue f
              - (235.76 - Finance.total_fees f - Finance.vat_amount f)) <=? 0.01)%float
        = false)
  /\ (exists f,
        Finance.calculate_financials Scenarios.bad_nights ∅ = Ok f
        /\ py_float (get_or Scenarios.bad_nights "total_price" (VFloat 0)) = Ok 100%float
        /\ (abs (Finance.net_revenue f
                 - (100 - Finance.total_fees f - Finance.vat_amount f)) <=? 0.01)%float
           = false).
Proof.
  split.
  - eexists. split; [vm_compute; reflexivity|]. vm_compute. auto.
  - eexists. split; [vm_compute; reflexivity|]. vm_compute. auto.
Qed.

(** C6. [calculate_financials] raises nothing: it returns the breakdown its
    body computed, or, when the body raised, the breakdown with every fee,
    the VAT, the revenue, the payout and the per-night prices at 0.0 and the
    lead time empty. *)
Theorem calculate_financials_never_raises
    (normalized_reservation config : gmap string value) :
  exists f,
    Finance.calculate_financials normalized_reservation config = Ok f
    /\ (Finance.compute normalized_reservation config = Ok f
        \/ ((exists e, Finance.compute normalized_reservation config = Raise e)
            /\ f = Finance.mkfinancials 0 0 0 0 0 0 0 0 (VStr "") 0 0)).
Proof.
  unfold Finance.calculate_financials.
  destruct (Finance.compute normalized_reservation config) as [f|e] eqn:Hbody.
  - exists f. split; [reflexivity | by left].
  - exists Finance.defaults. split; [reflexivity|]. right. split; [by exists e|].
    reflexivity.
Qed.

(** The fallback is taken: a price that is no number, and a reservation date
    made of blanks, whose [IndexError] the inner handler does not catch. *)
Example calculate_financials_fallbacks :
  Finance.compute Scenarios.bad_nights ∅ = Raise ValueError
  /\ Finance.calculate_financials Scenarios.bad_nights ∅ = Ok Finance.defaults
  /\ Finance.compute Scenarios.blank_reservation_date ∅ = Raise IndexError
  /\ Finance.calculate_financials Scenarios.blank_reservation_date ∅
     = Ok Finance.defaults.
Proof. vm_compute. repeat split; reflexivity. Qed.

(** ** Further properties of the same functions *)

(** X1. An ordinary field (neither financial nor always overwritten) that holds
    a value in the stored record is not blanked by an import that leaves it
    blank: the merged record keeps the stored value. *)
Theorem merge_keeps_value_on_blank_import
    (existing new : gmap string value) (key : string) (stored : value) :
  key ∉ ReservationMerger.FINANCIAL_FIELDS ->
  key ∉ ReservationMerger.ALWAYS_OVERWRITE_FIELDS ->
  existing !! key = Some stored ->
  ReservationMerger._is_empty stored = false ->
  ReservationMerger._is_empty (get new key) = true ->
  ReservationMerger.merge existing new !! key = Some stored.
Proof.
  intros Hfin Halways Hstored Hfull Hblank.
  rewrite lookup_merge, decide_True
    by (apply elem_of_union; left; apply elem_of_dom; eauto).
  f_equal. unfold ReservationMerger.merge_key.
  rewrite !decide_False by assumption.
  unfold get in *. rewrite Hstored in *. simpl. rewrite Hfull, Hblank.
  reflexivity.
Qed.

Lemma merge_keeps_value_on_blank_import_witness :
  ReservationMerger.merge Scenarios.row_with_phone Scenarios.import_without_phone
    !! "guest_phone" = Some (VStr "+351910000000").
Proof.
  apply (merge_keeps_value_on_blank_import
           Scenarios.row_with_phone Scenarios.import_without_phone
           "guest_phone" (VStr "+351910000000")).
  - vm_compute. intros H. discriminate H.
  - vm_compute. intros H. discriminate H.
  - vm_compute. reflexivity.
  - vm_compute. reflexivity.
  - vm_compute. reflexivity.
Defined.

Section tax_bounds.
Import TouristTax.

Lemma count_chargeable_bounds (n : nat) (i : Z) (check_in_date dob_date : date)
    (start stop : Z) :
  count_chargeable n i check_in_date dob_date start = Ok stop ->
  start <= stop <= start + Z.of_nat n.
Proof.
  revert i start. induction n as [|n IH]; intros i start Hloop.
  - simpl in Hloop. injection Hloop as <-. lia.
  - cbn [count_chargeable] in Hloop.
    destruct (Calendar.add_days check_in_date i) as [night|e];
      [|discriminate Hloop].
    cbn [bind] in Hloop.
    destruct (age_at (Calendar.days_between night dob_date)) as [age|e];
      [|discriminate Hloop].
    cbn [bind] in Hloop. apply IH in Hloop.
    destruct (16 <=? age); lia.
Qed.

End tax_bounds.

(** X2. The tax of one guest is an even amount between 0 and 14: 2 per
    chargeable night, seven nights at most, never more nights than the
    stay has. *)
Theorem tourist_tax_bounds (today : date) (check_in check_out dob : value)
    (tax : Z) :
  TouristTax.calculate_tourist_tax today check_in check_out dob = Ok tax ->
  exists paid_nights, tax = 2 * paid_nights /\ 0 <= paid_nights <= 7.
Proof.
  unfold TouristTax.calculate_tourist_tax. intros H.
  destruct (TouristTax.parse_dates check_in check_out dob)
    as [[[check_in_date check_out_date] dob_date]|e]; [|discriminate H].
  cbn [bind] in H.
  destruct (Calendar.date_leb check_out_date check_in_date);
    [injection H as <-; exists 0; lia|].
  destruct (Calendar.date_ltb today dob_date);
    [injection H as <-; exists 0; lia|].
  destruct (Calendar.days_between check_out_date check_in_date <=? 0);
    [injection H as <-; exists 0; lia|].
  destruct (TouristTax.count_chargeable _ 0 check_in_date dob_date 0)
    as [chargeable|e] eqn:Hloop; [|discriminate H].
  cbn [bind] in H. injection H as <-.
  apply count_chargeable_bounds in Hloop.
  exists (Z.min chargeable 7). lia.
Qed.

Lemma tourist_tax_bounds_witness :
  TouristTax.calculate_tourist_tax Scenarios.a_day
    (VStr "2025-06-01") (VStr "2025-06-11") (VStr "2000-01-01") = Ok 14
  /\ exists paid_nights, 14 = 2 * paid_nights /\ 0 <= paid_nights <= 7.
Proof.
  assert (TouristTax.calculate_tourist_tax Scenarios.a_day
            (VStr "2025-06-01") (VStr "2025-06-11") (VStr "2000-01-01") = Ok 14)
    as H by (vm_compute; reflexivity).
  split; [exact H|].
  exact (tourist_tax_bounds _ _ _ _ _ H).
Defined.

(** X3. The expected payout leaves the dynamic fee out: it is [total_price]
    minus the Airbnb, Lodgify and Stripe fees, rounded to two decimals. *)
Theorem payout_excludes_dynamic_fee
    (normalized_reservation config : gmap string value)
    (f : Finance.financials) :
  Finance.compute normalized_reservation config = Ok f ->
  exists total_price,
    py_float (get_or normalized_reservation "total_price" (VFloat 0))
      = Ok total_price
    /\ Finance.payout_expected f
       = PyFloat.round2 (total_price - Finance.airbnb_fee f
                         - Finance.lodgify_fee f - Finance.stripe_fee f)%float.
Proof.
  intros Hf.
  destruct (compute_identities _ _ _ Hf) as (_ & tp & Htp & _ & Hpayout).
  exists tp. split; assumption.
Qed.

Lemma payout_excludes_dynamic_fee_witness :
  Finance.compute Scenarios.three_decimals ∅
  = Ok (Finance.mkfinancials 0 0.661 0 0.914 1.58 0 234.19 235.1 (VStr "") 0 0)
  /\ exists total_price,
       py_float (get_or Scenarios.three_decimals "total_price" (VFloat 0))
         = Ok total_price
       /\ 235.1%float = PyFloat.round2 (total_price - 0 - 0.661 - 0)%float.
Proof.
  assert (Finance.compute Scenarios.three_decimals ∅
          = Ok (Finance.mkfinancials 0 0.661 0 0.914 1.58 0 234.19 235.1
                  (VStr "") 0 0)) as H by (vm_compute; reflexivity).
  split; [exact H|].
  exact (payout_excludes_dynamic_fee _ _ _ H).
Defined.

Section lead_time_facts.
Import Finance.

Lemma lead_time_nonneg (reservation_date check_in : value) (days : Z) :
  lead_time reservation_date check_in = Ok (Some days) -> 0 <= days.
Proof.
  unfold lead_time, try_except. intros H.
  destruct (truthy reservation_date && truthy check_in).
  - destruct (date_of_field reservation_date) as [[res_date|]|e]; cbn [bind] in H.
    + destruct (date_of_field check_in) as [[checkin_date|]|e']; cbn [bind] in H.
      * injection H as <-. lia.
      * discriminate H.
      * destruct e'; discriminate H.
    + destruct (date_of_field check_in) as [[checkin_date|]|e']; cbn [bind] in H;
        try discriminate H. destruct e'; discriminate H.
    + destruct e; discriminate H.
  - discriminate H.
Qed.

End lead_time_facts.

(** X4. The lead time of a computed breakdown is empty or a number of days that
    is not negative. *)
Theorem anticipation_days_nonnegative
    (normalized_reservation config : gmap string value)
    (f : Finance.financials) :
  Finance.compute normalized_reservation config = Ok f ->
  Finance.anticipation_days f = VStr ""
  \/ exists days, Finance.anticipation_days f = VInt days /\ 0 <= days.
Proof.
  unfold Finance.compute. cbv zeta. intros H.
  repeat match type of H with
         | bind _ _ = Ok _ =>
             let a := fresh "a" in
             let Ha := fresh "Ha" in
             apply bind_Ok in H as (a & Ha & H)
         end.
  injection H as <-. simpl.
  match goal with
  | Hlead : Finance.lead_time _ _ = Ok ?days |- _ =>
      destruct days as [days|];
      [right; exists days; split;
       [reflexivity | exact (lead_time_nonneg _ _ _ Hlead)]
      | left; reflexivity]
  end.
Qed.

Lemma anticipation_days_nonnegative_witness :
  Finance.compute Scenarios.airbnb_stay Scenarios.rates
  = Ok (Finance.mkfinancials 150 1.5 0 0 151.5 60 788.5 848.5 (VInt 31) 250 125)
  /\ (VInt 31 = VStr "" \/ exists days, VInt 31 = VInt days /\ 0 <= days).
Proof.
  assert (Finance.compute Scenarios.airbnb_stay Scenarios.rates
          = Ok (Finance.mkfinancials 150 1.5 0 0 151.5 60 788.5 848.5
                  (VInt 31) 250 125)) as H by (vm_compute; reflexivity).
  split; [exact H|].
  exact (anticipation_days_nonnegative _ _ _ H).
Defined.

(** ** The detailed tourist tax, and longer stays *)

Section tax_detailed.
Import TouristTax.

(** The loop over [n + k] nights is the loop over [n] nights continued for
    [k] more. *)
Lemma count_chargeable_app (n k : nat) (i : Z) (check_in_date dob_date : date)
    (start : Z) :
  count_chargeable (n + k) i check_in_date dob_date start
  = bind (count_chargeable n i check_in_date dob_date start)
         (count_chargeable k (i + Z.of_nat n) check_in_date dob_date).
Proof.
  revert i start. induction n as [|n IH]; intros i start.
  - cbn [Nat.add count_chargeable bind]. replace (i + Z.of_nat 0) with i by lia.
    reflexivity.
  - cbn [Nat.add count_chargeable].
    destruct (Calendar.add_days check_in_date i) as [night|e]; [|reflexivity].
    cbn [bind].
    destruct (age_at (Calendar.days_between night dob_date)) as [age|e];
      [|reflexivity].
    cbn [bind]. rewrite IH.
    replace (i + 1 + Z.of_nat n) with (i + Z.of_nat (S n)) by lia.
    reflexivity.
Qed.

(** What the [try] block of both functions gives is read off each argument
    on its own. *)
Lemma parse_dates_Ok (check_in check_out dob : value) (a b c : date) :
  parse_dates check_in check_out dob = Ok (a, b, c) ->
  exists s1 s2 s3,
    DateUtils.normalize_date check_in = Ok s1
    /\ DateUtils.normalize_date check_out = Ok s2
    /\ DateUtils.normalize_date dob = Ok s3
    /\ Pattern.strptime_date s1 "%Y-%m-%d" = Ok a
    /\ Pattern.strptime_date s2 "%Y-%m-%d" = Ok b
    /\ Pattern.strptime_date s3 "%Y-%m-%d" = Ok c.
Proof.
  unfold parse_dates, try_except. intros H.
  destruct (DateUtils.normalize_date check_in) as [s1|e1]; cbn [bind] in H;
    [|destruct e1; discriminate H].
  destruct (DateUtils.normalize_date check_out) as [s2|e2]; cbn [bind] in H;
    [|destruct e2; discriminate H].
  destruct (DateUtils.normalize_date dob) as [s3|e3]; cbn [bind] in H;
    [|destruct e3; discriminate H].
  destruct (Pattern.strptime_date s1 "%Y-%m-%d") as [a'|e1] eqn:Ha;
    cbn [bind] in H; [|destruct e1; discriminate H].
  destruct (Pattern.strptime_date s2 "%Y-%m-%d") as [b'|e2] eqn:Hb;
    cbn [bind] in H; [|destruct e2; discriminate H].
  destruct (Pattern.strptime_date s3 "%Y-%m-%d") as [c'|e3] eqn:Hc;
    cbn [bind] in H; [|destruct e3; discriminate H].
  injection H as <- <- <-. exists s1, s2, s3.
  repeat split; assumption || reflexivity.
Qed.

End tax_detailed.

(** X5. [calculate_tourist_tax] is the [tax_amount] of
    [calculate_tourist_tax_detailed] on every input: both raise on the same
    inputs, and where they return the amounts agree. *)
Theorem tourist_tax_is_detailed_amount (today : date)
    (check_in check_out dob : value) :
  TouristTax.calculate_tourist_tax today check_in check_out dob
  = bind (TouristTax.calculate_tourist_tax_detailed today check_in check_out dob)
         (fun breakdown => Ok (TouristTax.tax_amount breakdown)).
Proof.
  unfold TouristTax.calculate_tourist_tax,
    TouristTax.calculate_tourist_tax_detailed.
  destruct (TouristTax.parse_dates check_in check_out dob)
    as [[[check_in_date check_out_date] dob_date]|e]; [|reflexivity].
  cbn [bind].
  destruct (Calendar.date_leb check_out_date check_in_date) eqn:Hstay;
    [reflexivity|].
  destruct (Calendar.date_ltb today dob_date); [reflexivity|].
  assert ((Calendar.days_between check_out_date check_in_date <=? 0) = false)
    as ->.
  { unfold Calendar.date_leb in Hstay. unfold Calendar.days_between. lia. }
  destruct (TouristTax.count_chargeable _ 0 check_in_date dob_date 0);
    reflexivity.
Qed.

(** X6. In every breakdown [calculate_tourist_tax_detailed] returns, the rate
    is 2, the tax is 2 per paid night, the paid nights are the chargeable
    nights capped at 7, and the chargeable nights are at least 0 and at most
    the nights of the stay. *)
Theorem detailed_breakdown_consistent (today : date)
    (check_in check_out dob : value) (breakdown : TouristTax.tax_breakdown) :
  TouristTax.calculate_tourist_tax_detailed today check_in check_out dob
    = Ok breakdown ->
  TouristTax.per_night_rate breakdown = 2
  /\ TouristTax.tax_amount breakdown = 2 * TouristTax.paid_nights breakdown
  /\ TouristTax.paid_nights breakdown
     = Z.min (TouristTax.chargeable_nights breakdown) 7
  /\ 0 <= TouristTax.chargeable_nights breakdown
       <= TouristTax.total_nights breakdown.
Proof.
  unfold TouristTax.calculate_tourist_tax_detailed. intros H.
  destruct (TouristTax.parse_dates check_in check_out dob)
    as [[[check_in_date check_out_date] dob_date]|e]; [|discriminate H].
  cbn [bind] in H.
  destruct (Calendar.date_leb check_out_date check_in_date) eqn:Hstay;
    [injection H as <-; simpl; lia|].
  assert (0 < Calendar.days_between check_out_date check_in_date) as Hnights.
  { unfold Calendar.date_leb in Hstay. unfold Calendar.days_between. lia. }
  destruct (Calendar.date_ltb today dob_date);
    [injection H as <-; simpl; lia|].
  destruct (TouristTax.count_chargeable _ 0 check_in_date dob_date 0)
    as [chargeable|e] eqn:Hloop; [|discriminate H].
  cbn [bind] in H. injection H as <-. simpl.
  apply count_chargeable_bounds in Hloop. lia.
Qed.

Lemma detailed_breakdown_consistent_witness :
  TouristTax.calculate_tourist_tax_detailed Scenarios.a_day
    (VStr "2025-06-01") (VStr "2025-06-11") (VStr "2009-06-03")
  = Ok (TouristTax.mkbreakdown 10 8 7 14 2)
  /\ 0 <= 8 <= 10.
Proof.
  assert (TouristTax.calculate_tourist_tax_detailed Scenarios.a_day
            (VStr "2025-06-01") (VStr "2025-06-11") (VStr "2009-06-03")
          = Ok (TouristTax.mkbreakdown 10 8 7 14 2)) as H
    by (vm_compute; reflexivity).
  split; [exact H|].
  exact (proj2 (proj2 (proj2 (detailed_breakdown_consistent _ _ _ _ _ H)))).
Defined.

(** X7. A later check-out never lowers the tax: for the same check-in and
    birth date, when both stays are taxed, the stay that ends on or after
    the other pays at least as much. *)
Theorem tourist_tax_monotone_in_stay (today : date)
    (check_in check_out later_check_out dob : value)
    (a b c a' b' c' : date) (tax later_tax : Z) :
  TouristTax.parse_dates check_in check_out dob = Ok (a, b, c) ->
  TouristTax.parse_dates check_in later_check_out dob = Ok (a', b', c') ->
  Calendar.date_leb b b' = true ->
  TouristTax.calculate_tourist_tax today check_in check_out dob = Ok tax ->
  TouristTax.calculate_tourist_tax today check_in later_check_out dob
    = Ok later_tax ->
  tax <= later_tax.
Proof.
  intros Hp Hp' Hlater Htax Hlater_tax.
  assert (a' = a /\ c' = c) as [-> ->].
  { apply parse_dates_Ok in Hp as (s1 & s2 & s3 & H1 & _ & H3 & Ha & _ & Hc).
    apply parse_dates_Ok in Hp' as (t1 & t2 & t3 & G1 & _ & G3 & Ga & _ & Gc).
    rewrite H1 in G1. injection G1 as <-. rewrite H3 in G3. injection G3 as <-.
    rewrite Ha in Ga. rewrite Hc in Gc. split; congruence. }
  unfold TouristTax.calculate_tourist_tax in Htax, Hlater_tax.
  rewrite Hp in Htax. rewrite Hp' in Hlater_tax. cbn [bind] in Htax, Hlater_tax.
  assert (0 <= later_tax) as Hnonneg.
  { clear Htax.
    destruct (Calendar.date_leb b' a); [injection Hlater_tax as <-; lia|].
    destruct (Calendar.date_ltb today c); [injection Hlater_tax as <-; lia|].
    destruct (Calendar.days_between b' a <=? 0);
      [injection Hlater_tax as <-; lia|].
    destruct (TouristTax.count_chargeable _ 0 a c 0) as [n|e] eqn:Hloop;
      [|discriminate Hlater_tax].
    cbn [bind] in Hlater_tax. injection Hlater_tax as <-.
    apply count_chargeable_bounds in Hloop. lia. }
  unfold Calendar.date_leb, Calendar.date_ltb, Calendar.days_between in *.
  destruct (Calendar.toordinal b <=? Calendar.toordinal a) eqn:Hstay;
    [injection Htax as <-; lia|].
  destruct (Calendar.toordinal today <? Calendar.toordinal c);
    [injection Htax as <-; lia|].
  destruct (Calendar.toordinal b - Calendar.toordinal a <=? 0);
    [injection Htax as <-; lia|].
  assert ((Calendar.toordinal b' <=? Calendar.toordinal a) = false) as Hstay'
    by lia.
  rewrite Hstay' in Hlater_tax.
  assert ((Calendar.toordinal b' - Calendar.toordinal a <=? 0) = false) as Hpos'
    by lia.
  rewrite Hpos' in Hlater_tax.
  replace (Z.to_nat (Calendar.toordinal b' - Calendar.toordinal a))
    with (Z.to_nat (Calendar.toordinal b - Calendar.toordinal a)
          + Z.to_nat (Calendar.toordinal b' - Calendar.toordinal b))%nat
    in Hlater_tax by lia.
  rewrite count_chargeable_app in Hlater_tax.
  destruct (TouristTax.count_chargeable
              (Z.to_nat (Calendar.toordinal b - Calendar.toordinal a)) 0 a c 0)
    as [chargeable|e]; [|discriminate Htax].
  cbn [bind] in Htax, Hlater_tax.
  destruct (TouristTax.count_chargeable _ _ a c chargeable)
    as [chargeable'|e] eqn:Hmore; [|discriminate Hlater_tax].
  cbn [bind] in Hlater_tax.
  apply count_chargeable_bounds in Hmore.
  injection Htax as <-. injection Hlater_tax as Heq. lia.
Qed.

Lemma tourist_tax_monotone_in_stay_witness :
  TouristTax.calculate_tourist_tax Scenarios.a_day
    (VStr "2025-06-01") (VStr "2025-06-03") (VStr "2000-01-01") = Ok 4
  /\ TouristTax.calculate_tourist_tax Scenarios.a_day
       (VStr "2025-06-01") (VStr "2025-06-05") (VStr "2000-01-01") = Ok 8
  /\ 4 <= 8.
Proof.
  assert (TouristTax.calculate_tourist_tax Scenarios.a_day
            (VStr "2025-06-01") (VStr "2025-06-03") (VStr "2000-01-01") = Ok 4)
    as H1 by (vm_compute; reflexivity).
  assert (TouristTax.calculate_tourist_tax Scenarios.a_day
            (VStr "2025-06-01") (VStr "2025-06-05") (VStr "2000-01-01") = Ok 8)
    as H2 by (vm_compute; reflexivity).
  split; [exact H1|]. split; [exact H2|].
  apply (tourist_tax_monotone_in_stay Scenarios.a_day
           (VStr "2025-06-01") (VStr "2025-06-03") (VStr "2025-06-05")
           (VStr "2000-01-01")
           (mkdate 2025 6 1) (mkdate 2025 6 3) (mkdate 2000 1 1)
           (mkdate 2025 6 1) (mkdate 2025 6 5) (mkdate 2000 1 1) 4 8);
    try assumption; vm_compute; reflexivity.
Defined.
